(** * Freshmaker database models: events, artifact builds and the
      state-transition cascade (freshmaker/models.py) *)

From Stdlib Require Import ZArith Ascii String Lia.
From Stdlib Require QArith.
From stdpp Require Import base list strings gmap.

Local Open Scope string_scope.
Local Open Scope Z_scope.

(** ** Python values that reach the model

    The columns are typed, but the arguments of [create], of the validators
    and of [Event.create] are ordinary Python objects.  The fragment needed
    here: [None], integers, [True] and [False], floats, strings and class
    objects (named by their class name).  A float is given by the rational
    number it denotes; [nan] and the infinities, which equal no integer,
    are left out. *)

Abbreviation Q := QArith_base.Q.

#[global] Instance Q_eq_dec : EqDecision Q.
Proof. solve_decision. Defined.

Inductive pyval : Type :=
  | PyNone
  | PyInt (z : Z)
  | PyBool (b : bool)
  | PyFloat (q : Q)
  | PyStr (s : string)
  | PyClass (cls : string).

#[global] Instance pyval_eq_dec : EqDecision pyval.
Proof. solve_decision. Defined.

(** Truth value of an object, as [x or y] and [if x:] use it. *)
Definition truthy (v : pyval) : bool :=
  match v with
  | PyNone => false
  | PyInt z => negb (z =? 0)
  | PyBool b => b
  | PyFloat q => negb (QArith_base.Qnum q =? 0)
  | PyStr s => negb (String.eqb s "")
  | PyClass _ => true
  end.

(** [a or b] *)
Definition py_or (a b : pyval) : pyval := if truthy a then a else b.

(** The number that a numeric object denotes: [bool] is a subclass of
    [int] with [True == 1] and [False == 0]. *)
Definition as_num (v : pyval) : option Q :=
  match v with
  | PyInt z => Some (QArith_base.inject_Z z)
  | PyBool b => Some (QArith_base.inject_Z (if b then 1 else 0))
  | PyFloat q => Some q
  | _ => None
  end.

(** [a == b]: numbers compare by value, whatever their types; [None],
    strings and classes equal only themselves. *)
Definition py_eq (a b : pyval) : bool :=
  match as_num a, as_num b with
  | Some p, Some q => QArith_base.Qeq_bool p q
  | None, None => bool_decide (a = b)
  | _, _ => false
  end.

(** [x in xs] for a list [xs] *)
Definition py_in (x : pyval) (xs : list pyval) : bool := existsb (py_eq x) xs.

(** The integer that an object equals, if any: what [==], a dictionary or
    [Enum] lookup and an integer column make of the object. *)
Definition as_int (v : pyval) : option Z :=
  match v with
  | PyInt z => Some z
  | PyBool b => Some (if b then 1 else 0)
  | PyFloat q =>
      let n := QArith_base.Qnum q in
      let d := Z.pos (QArith_base.Qden q) in
      if n mod d =? 0 then Some (n / d) else None
  | _ => None
  end.

(** ** [str.lower] and [str.upper] on byte strings *)

Definition ascii_lower (c : ascii) : ascii :=
  let n := N_of_ascii c in
  if ((65 <=? n) && (n <=? 90))%N then ascii_of_N (n + 32) else c.

Definition ascii_upper (c : ascii) : ascii :=
  let n := N_of_ascii c in
  if ((97 <=? n) && (n <=? 122))%N then ascii_of_N (n - 32) else c.

Fixpoint str_map (f : ascii → ascii) (s : string) : string :=
  match s with
  | EmptyString => EmptyString
  | String c s' => String (f c) (str_map f s')
  end.

Definition lower : string → string := str_map ascii_lower.
Definition upper : string → string := str_map ascii_upper.

(** ** Enumerations ([enum.Enum])

    A class deriving from [Enum] is the list of its members in definition
    order, each with a name and a value. *)

Module enum.
Record member : Type := Member { name : string; value : Z }.
End enum.

Abbreviation Enum := (list enum.member).

(** [list(E)] mapped to the values: [[m.value for m in list(E)]] *)
Definition values (E : Enum) : list Z := enum.value <$> E.

(** [[m.name.lower() for m in list(E)]] *)
Definition lower_names (E : Enum) : list string := (λ m, lower (enum.name m)) <$> E.

(** [E(v)]: the member with value [v] *)
Definition by_value (E : Enum) (v : Z) : option enum.member :=
  head (filter (λ m, enum.value m = v) E).

(** [E[n]]: the member named [n] *)
Definition by_name (E : Enum) (n : string) : option enum.member :=
  head (filter (λ m, enum.name m = n) E).

(** ** Exceptions *)

Inductive exn : Type :=
  (** [ValueError("%s: %s, not in %r" % (key, field, list(E)))] of the
      validators *)
  | ValueError (key : string) (field : pyval) (valid : Enum)
  (** [ValueError] of [E(v)] for a value of no member *)
  | NotAValid (v : Z) (valid : Enum)
  (** [KeyError] of a dictionary or of [E[n]] *)
  | KeyError (k : pyval)
  (** [AttributeError] of [None.attr] *)
  | AttributeError (attr : string)
  (** a row that the session does not hold *)
  | NoResultFound (id : Z)
  (** [sqlalchemy.exc.IntegrityError] of a flush: the constraint of a
      column (NOT NULL, UNIQUE) refuses a row *)
  | IntegrityError (column : string)
  (** [sqlalchemy.exc.StatementError] of a flush: the statement cannot be
      executed with the value given for a column *)
  | StatementError (column : string) (v : pyval)
  (** the interpreter's recursion limit (the fuel of the model) *)
  | RecursionError.

Inductive result (A : Type) : Type :=
  | Ok (a : A)
  | Raise (e : exn).
Arguments Ok {A} a.
Arguments Raise {A} e.

(** ** The module [freshmaker.types]

    The module that declares [ArtifactType] and [ArtifactBuildState] is
    not among the sources, so the integer codes of the four build states and
    the whole of [ArtifactType] are parameters of the development. *)

Class Types : Type := {
  BUILD : Z;
  DONE : Z;
  FAILED : Z;
  CANCELED : Z;
  ArtifactType : Enum
}.

(** Modelled from the spec: the members of [ArtifactBuildState], whose
    declaration (freshmaker/types.py) is missing.  The names are those the
    source uses ([ArtifactBuildState.BUILD.value] and so on); that there are
    no other members is the spec's "closed set". *)
Definition ArtifactBuildState `{Types} : Enum :=
  [ enum.Member "BUILD" BUILD; enum.Member "DONE" DONE;
    enum.Member "FAILED" FAILED; enum.Member "CANCELED" CANCELED ].

(** What Python's [Enum] and the naming convention of the module give:
    distinct members have distinct values and names, and names are written
    in capitals. *)
Class TypesLaws `{Types} : Prop := {
  state_codes_distinct : NoDup [BUILD; DONE; FAILED; CANCELED];
  type_names_distinct : NoDup (enum.name <$> ArtifactType);
  type_names_upper : Forall (λ m, upper (enum.name m) = enum.name m) ArtifactType
}.

(** [datetime.utcnow()]: the reading returned by the [n]-th call. *)
Class Clock : Type := utcnow_at : nat → Z.

(** ** Tables *)

(** [Event], table "events" *)
Module events.
Record row : Type := Row {
  id : Z;
  message_id : string;
  search_key : string;
  event_type_id : pyval;
  released : bool;
  compose_id : option Z
}.
End events.

(** [ArtifactBuild], table "artifact_builds" *)
Module artifact_builds.
Record row : Type := Row {
  id : Z;
  name : string;
  original_nvr : option string;
  rebuilt_nvr : option string;
  type : Z;
  state : Z;
  state_reason : option string;
  time_submitted : Z;
  time_completed : option Z;
  dep_on_id : option Z;
  event_id : option Z;
  build_id : option Z;
  build_args : option string
}.
End artifact_builds.

#[global] Instance events_row_eq_dec : EqDecision events.row.
Proof. solve_decision. Defined.
#[global] Instance artifact_builds_row_eq_dec : EqDecision artifact_builds.row.
Proof. solve_decision. Defined.

(** ** Logging ([freshmaker.log]) *)

Inductive level : Type := ERROR | INFO.

(** ["<ArtifactBuild %s, type %s, state %s, event %s>"] *)
Record build_repr : Type := BuildRepr {
  repr_name : string;
  repr_type : string;
  repr_state : string;
  repr_event : string
}.

(** ["Artifact build %r moved to state %s, %r"] at a level *)
Record log_record : Type := LogRecord {
  log_level : level;
  log_build : build_repr;
  log_state : string;
  log_reason : string
}.

(** ** The session: the rows it holds, the log written so far and the
    number of clock readings taken *)

Record Session : Type := MkSession {
  events_table : list events.row;
  artifact_builds_table : list artifact_builds.row;
  log : list log_record;
  clock : nat
}.

(** ** Computations: a session threaded through, an exception keeps the
    session as it was when raised (Python's objects stay mutated). *)

Definition M (A : Type) : Type := Session → result A * Session.

Definition ret {A} (a : A) : M A := λ s, (Ok a, s).
Definition raise {A} (e : exn) : M A := λ s, (Raise e, s).
Definition bind {A B} (m : M A) (k : A → M B) : M B :=
  λ s, match m s with
       | (Ok a, s') => k a s'
       | (Raise e, s') => (Raise e, s')
       end.

Declare Scope session_scope.
Delimit Scope session_scope with session.
Notation "x <- m ;; k" := (bind m (λ x, k))
  (at level 100, m at next level, right associativity) : session_scope.
Notation "m ;;; k" := (bind m (λ _, k))
  (at level 100, right associativity) : session_scope.
Local Open Scope session_scope.

Definition lift {A} (r : result A) : M A := λ s, (r, s).
Definition gets {A} (f : Session → A) : M A := λ s, (Ok (f s), s).
Definition modify (f : Session → Session) : M unit := λ s, (Ok tt, f s).

(** [for x in xs: body(x)] *)
Fixpoint for_each {A} (xs : list A) (body : A → M unit) : M unit :=
  match xs with
  | [] => ret tt
  | x :: xs' => body x ;;; for_each xs' body
  end.

Definition set_events (es : list events.row) (s : Session) : Session :=
  MkSession es (artifact_builds_table s) (log s) (clock s).
Definition set_artifact_builds (bs : list artifact_builds.row) (s : Session) : Session :=
  MkSession (events_table s) bs (log s) (clock s).

(** [log.error(...)], [log.info(...)] *)
Definition log_fnc (l : level) (b : build_repr) (st reason : string) : M unit :=
  modify (λ s, MkSession (events_table s) (artifact_builds_table s)
                 (log s ++ [LogRecord l b st reason]) (clock s)).

(** [datetime.utcnow()] *)
Definition utcnow `{Clock} : M Z :=
  λ s, (Ok (utcnow_at (clock s)),
        MkSession (events_table s) (artifact_builds_table s) (log s) (S (clock s))).

(** The next value of an auto-incremented integer primary key. *)
Definition next_id (ids : list Z) : Z := 1 + foldr Z.max 0 ids.

(** ** [EVENT_TYPES] and [INVERSE_EVENT_TYPES] *)

(** A dictionary display or comprehension: later items overwrite. *)
Definition dict_of `{Countable K} {V} (items : list (K * V)) : gmap K V :=
  foldl (λ m kv, <[kv.1 := kv.2]> m) ∅ items.

Definition EVENT_TYPES_items : list (string * Z) :=
  [ ("MBSModuleStateChangeEvent", 0);
    ("GitModuleMetadataChangeEvent", 1);
    ("GitRPMSpecChangeEvent", 2);
    ("TestingEvent", 3);
    ("GitDockerfileChangeEvent", 4);
    ("BodhiUpdateCompleteStableEvent", 5);
    ("KojiTaskStateChangeEvent", 6);
    ("BrewSignRPMEvent", 7);
    ("ErrataAdvisoryRPMsSignedEvent", 8) ].

Definition EVENT_TYPES : gmap string Z := dict_of EVENT_TYPES_items.

Definition INVERSE_EVENT_TYPES : gmap Z string :=
  dict_of ((λ kv, (kv.2, kv.1)) <$> EVENT_TYPES_items).

(** ** Flushing the session

    [session.add] only makes an object pending: [events_table] holds the
    events of the session, those already written and those pending, in the
    order they were added.  A query first flushes the session, and the
    flush writes the pending events.  The column [event_type_id] is
    [Integer, nullable=False]: [None] is refused by the constraint, a
    class object cannot be bound to a statement, and what becomes of any
    other object (an integer beyond the width of the column, a string, a
    bool, a float) is up to the database and its driver. *)

(** Whether the database and its driver take the object for an integer
    column. *)
Class Backend : Type := binds : pyval → bool.

(** Whether an event with this [event_type_id] can be written. *)
Definition storable `{Backend} (v : pyval) : bool :=
  match v with
  | PyNone => false
  | PyClass _ => false
  | _ => binds v
  end.

(** The exception of the flush that meets an event with this
    [event_type_id]. *)
Definition flush_error (v : pyval) : exn :=
  match v with
  | PyNone => IntegrityError "events.event_type_id"
  | _ => StatementError "events.event_type_id" v
  end.

(** The flush that precedes a query: it raises at the first event that
    cannot be written.  The pending event stays in the session, so that
    every later flush raises as well. *)
Definition autoflush `{Backend} : M unit :=
  λ s, match filter (λ e, storable (events.event_type_id e) = false)
               (events_table s) with
       | [] => (Ok tt, s)
       | e :: _ => (Raise (flush_error (events.event_type_id e)), s)
       end.

(** ** class [Event] *)

Module Event.
Section Event.
Context `{Backend}.

(** [event_type in EVENT_TYPES] and [EVENT_TYPES[event_type]]: the keys
    are classes, so no other object is found. *)
Definition encode (event_type : pyval) : pyval :=
  match event_type with
  | PyClass c =>
      match EVENT_TYPES !! c with
      | Some code => PyInt code
      | None => event_type
      end
  | _ => event_type
  end.

(** [Event.create]: the event is added to the session and is pending; no
    statement is executed.  The event carries the primary key that the
    flush will give it. *)
Definition create (message_id search_key : string) (event_type : pyval)
    (released : bool) : M events.row :=
  let event_type := encode event_type in
  ids <- gets (λ s, events.id <$> events_table s) ;;
  let event := events.Row (next_id ids) message_id search_key event_type
                 released None in
  modify (λ s, set_events (events_table s ++ [event]) s) ;;;
  ret event.

(** [Event.get]: [session.query(cls).filter_by(message_id=message_id)
    .first()], after the flush of the session. *)
Definition get (message_id : string) : M (option events.row) :=
  autoflush ;;;
  gets (λ s, head (filter (λ e, events.message_id e = message_id)
                     (events_table s))).

Definition get_or_create (message_id search_key : string)
    (event_type : pyval) (released : bool) : M events.row :=
  instance <- get message_id ;;
  match instance with
  | Some instance => ret instance
  | None => create message_id search_key event_type released
  end.

(** property [event_type]: [INVERSE_EVENT_TYPES[self.event_type_id]],
    the class being given by its name.  The keys are integers, and a
    dictionary finds a key by [==]. *)
Definition event_type (self : events.row) : result string :=
  match as_int (events.event_type_id self) with
  | Some code =>
      match INVERSE_EVENT_TYPES !! code with
      | Some cls => Ok cls
      | None => Raise (KeyError (events.event_type_id self))
      end
  | None => Raise (KeyError (events.event_type_id self))
  end.

(** [query(ArtifactBuild).filter_by(event_id=self.id)
      .filter(state != state).count() == 0]: the second criterion
    compares the argument with itself and names no column. *)
Definition has_all_builds_in_state (self : events.row) (state : Z)
    : M bool :=
  gets (λ s,
    let of_event := filter (λ b, artifact_builds.event_id b = Some (events.id self))
                      (artifact_builds_table s) in
    let rows := filter (λ _ : artifact_builds.row, state ≠ state) of_event in
    bool_decide (length rows = 0%nat)).

End Event.
End Event.

(** ** class [ArtifactBuild] *)

Module ArtifactBuild.
Section ArtifactBuild.
Context `{Types} `{Clock}.

Import artifact_builds.

Definition with_type (z : Z) (b : row) : row :=
  Row (id b) (name b) (original_nvr b) (rebuilt_nvr b) z (state b)
    (state_reason b) (time_submitted b) (time_completed b) (dep_on_id b)
    (event_id b) (build_id b) (build_args b).

Definition with_state (z : Z) (b : row) : row :=
  Row (id b) (name b) (original_nvr b) (rebuilt_nvr b) (type b) z
    (state_reason b) (time_submitted b) (time_completed b) (dep_on_id b)
    (event_id b) (build_id b) (build_args b).

Definition with_state_reason (r : option string) (b : row) : row :=
  Row (id b) (name b) (original_nvr b) (rebuilt_nvr b) (type b) (state b)
    r (time_submitted b) (time_completed b) (dep_on_id b)
    (event_id b) (build_id b) (build_args b).

Definition with_time_completed (t : option Z) (b : row) : row :=
  Row (id b) (name b) (original_nvr b) (rebuilt_nvr b) (type b) (state b)
    (state_reason b) (time_submitted b) t (dep_on_id b)
    (event_id b) (build_id b) (build_args b).

(** The body shared by the two validators, for the enumeration [E]:
    [if field in [m.value for m in list(E)]: return field]
    [if field in [m.name.lower() for m in list(E)]:
         return E[field.upper()].value]
    [raise ValueError(...)]
    The first test is by [==], so that [True] or [2.0] passes where [1] or
    [2] does, and is returned as it is. *)
Definition validator (E : Enum) (key : string) (field : pyval)
    : result pyval :=
  if py_in field (PyInt <$> values E) then Ok field
  else if py_in field (PyStr <$> lower_names E) then
    match field with
    | PyStr s =>
        match by_name E (upper s) with
        | Some m => Ok (PyInt (enum.value m))
        | None => Raise (KeyError (PyStr (upper s)))
        end
    | _ => Raise (AttributeError "upper")
    end
  else Raise (ValueError key field E).

(** The attribute after the validator: the integer that the object
    returned equals, which is what the comparisons of [transition], the
    lookups of [__repr__] and the integer column make of it. *)
Definition validate (E : Enum) (key : string) (field : pyval) : result Z :=
  match validator E key field with
  | Ok v =>
      match as_int v with
      | Some z => Ok z
      | None => Raise (ValueError key field E)
      end
  | Raise e => Raise e
  end.

(** [@validates('state')]: what the method returns, and the attribute
    that results. *)
Definition validator_state (key : string) (field : pyval) : result pyval :=
  validator ArtifactBuildState key field.
Definition validate_state (key : string) (field : pyval) : result Z :=
  validate ArtifactBuildState key field.

(** [@validates('type')] *)
Definition validator_type (key : string) (field : pyval) : result pyval :=
  validator ArtifactType key field.
Definition validate_type (key : string) (field : pyval) : result Z :=
  validate ArtifactType key field.

(** [E(v).name] *)
Definition name_of (E : Enum) (v : Z) : result string :=
  match by_value E v with
  | Some m => Ok (enum.name m)
  | None => Raise (NotAValid v E)
  end.

(** The object of identity [self]: the session holds one object per
    primary key, shared by all who hold a reference to it. *)
Definition row_of (self : Z) (bs : list row) : option row :=
  head (filter (λ b, id b = self) bs).

Definition load (self : Z) : M row :=
  o <- gets (λ s, row_of self (artifact_builds_table s)) ;;
  match o with
  | Some b => ret b
  | None => raise (NoResultFound self)
  end.

(** Attribute assignment on the object [self]. *)
Definition update_rows (self : Z) (f : row → row) (bs : list row) : list row :=
  (λ b, if decide (id b = self) then f b else b) <$> bs.

Definition update (self : Z) (f : row → row) : M unit :=
  modify (λ s, set_artifact_builds
                 (update_rows self f (artifact_builds_table s)) s).

(** [self.state = field]: the validator runs first, and the attribute is
    assigned what it returns. *)
Definition setattr_state (self : Z) (field : pyval) : M unit :=
  z <- lift (validate_state "state" field) ;;
  update self (with_state z).

(** [self.type = field] *)
Definition setattr_type (self : Z) (field : pyval) : M unit :=
  z <- lift (validate_type "type" field) ;;
  update self (with_type z).

(** [ArtifactBuild.create] *)
Definition create (event : option events.row) (name : string) (type : pyval)
    (build_id : option Z) (dep_on : option row) (state : pyval)
    (original_nvr rebuilt_nvr : option string) : M row :=
  now <- utcnow ;;
  type <- lift (validate_type "type" type) ;;
  state <- lift (validate_state "state" (py_or state (PyInt BUILD))) ;;
  ids <- gets (λ s, id <$> artifact_builds_table s) ;;
  let build := Row (next_id ids) name original_nvr rebuilt_nvr type state
                 None now None (id <$> dep_on) (events.id <$> event)
                 build_id None in
  modify (λ s, set_artifact_builds (artifact_builds_table s ++ [build]) s) ;;;
  ret build.

(** [depending_artifact_builds]:
    [ArtifactBuild.query.filter_by(dep_on_id=self.id).all()] *)
Definition depending_artifact_builds (self : Z) : M (list row) :=
  gets (λ s, filter (λ b, dep_on_id b = Some self) (artifact_builds_table s)).

(** [self.event] *)
Definition event_of (b : row) (s : Session) : option events.row :=
  match event_id b with
  | Some e => head (filter (λ ev, events.id ev = e) (events_table s))
  | None => None
  end.

(** [__repr__] *)
Definition repr (self : Z) : M build_repr :=
  b <- load self ;;
  type_name <- lift (name_of ArtifactType (type b)) ;;
  state_name <- lift (name_of ArtifactBuildState (state b)) ;;
  ev <- gets (event_of b) ;;
  match ev with
  | Some ev => ret (BuildRepr (name b) type_name state_name (events.message_id ev))
  | None => raise (AttributeError "message_id")
  end.

Definition cascade_reason : string :=
  "Cannot build artifact, because its dependency cannot be built.".

(** [ArtifactBuild.transition]; [fuel] bounds the depth of the calls. *)
Fixpoint transition (fuel : nat) (self : Z) (state : Z)
    (state_reason : string) : M unit :=
  match fuel with
  | O => raise RecursionError
  | S fuel =>
      let level := if bool_decide (state = FAILED) then ERROR else INFO in
      state_name <- lift (name_of ArtifactBuildState state) ;;
      r <- repr self ;;
      log_fnc level r state_name state_reason ;;;
      b <- load self ;;
      if bool_decide (artifact_builds.state b = state) then ret tt else
      setattr_state self (PyInt state) ;;;
      update self (with_state_reason (Some state_reason)) ;;;
      b <- load self ;;
      (if bool_decide (artifact_builds.state b ∈ [DONE; FAILED; CANCELED])
       then now <- utcnow ;; update self (with_time_completed (Some now))
       else ret tt) ;;;
      b <- load self ;;
      if bool_decide (artifact_builds.state b ∈ [FAILED; CANCELED]) then
        builds <- depending_artifact_builds self ;;
        for_each builds (λ build,
          b <- load self ;;
          transition fuel (id build) (artifact_builds.state b) cascade_reason)
      else ret tt
  end.

End ArtifactBuild.
End ArtifactBuild.

(** ** Vocabulary of the properties *)

Module Import spec.
Import artifact_builds ArtifactBuild.

(** [d] depends on [a], directly or through other builds: following the
    [dep_on] links from [d] leads to [a] in one step or more. *)
Inductive depends (bs : list row) : Z → Z → Prop :=
  | depends_direct d b a :
      row_of d bs = Some b → dep_on_id b = Some a → depends bs d a
  | depends_step d b p a :
      row_of d bs = Some b → dep_on_id b = Some p →
      depends bs p a → depends bs d a.

(** No build depends on itself. *)
Definition acyclic (bs : list row) : Prop := ∀ i, ¬ depends bs i i.


(** The values that a validator of the enumeration [E] lets through: an
    object equal to the value of a member, or the name of a member in
    lower case. *)
Definition accepted (E : Enum) (field : pyval) : Prop :=
  (∃ z, as_int field = Some z ∧ z ∈ values E) ∨
  (∃ n, field = PyStr n ∧ n ∈ lower_names E).

(** Every event of the session can be written: the flush succeeds. *)
Definition flushable `{Backend} (s : Session) : Prop :=
  Forall (λ e, storable (events.event_type_id e) = true) (events_table s).

(** A rank that decreases along [dep_on]: a certificate of acyclicity. *)
Definition ranked (bs : list row) (rk : Z → nat) : Prop :=
  Forall (λ b, ∀ p, dep_on_id b = Some p → (rk p < rk (id b))%nat) bs.

(** Builds not yet in state [st]. *)
Definition pending (st : Z) (bs : list row) : nat :=
  length (filter (λ b, state b ≠ st) bs).

(** The build [i] had another state than [st] in [s] and has [st] in [s']. *)
Definition changed (st : Z) (s s' : Session) (i : Z) : Prop :=
  ∃ b b', row_of i (artifact_builds_table s) = Some b ∧ state b ≠ st ∧
          row_of i (artifact_builds_table s') = Some b' ∧ state b' = st.

(** [b'] is [b] with [z] for its state, and [b] with [z] for its type. *)
Definition state_assigned (z : Z) (b b' : row) : Prop :=
  b' = Row (id b) (name b) (original_nvr b) (rebuilt_nvr b) (type b) z
         (state_reason b) (time_submitted b) (time_completed b) (dep_on_id b)
         (event_id b) (build_id b) (build_args b).

Definition type_assigned (z : Z) (b b' : row) : Prop :=
  b' = Row (id b) (name b) (original_nvr b) (rebuilt_nvr b) z (state b)
         (state_reason b) (time_submitted b) (time_completed b) (dep_on_id b)
         (event_id b) (build_id b) (build_args b).

(** The session [s'] is [s] but for the row of [self], which is [b']. *)
Definition rewritten (self : Z) (b' : row) (s s' : Session) : Prop :=
  row_of self (artifact_builds_table s') = Some b' ∧
  (∀ i, i ≠ self →
     row_of i (artifact_builds_table s') = row_of i (artifact_builds_table s)) ∧
  id <$> artifact_builds_table s' = id <$> artifact_builds_table s ∧
  events_table s' = events_table s ∧ log s' = log s ∧ clock s' = clock s.

(** The session after a call that only logged [rec]. *)
Definition logged (rec : log_record) (s : Session) : Session :=
  MkSession (events_table s) (artifact_builds_table s) (log s ++ [rec])
    (clock s).

Section WithTypes.
Context `{Types}.

(** [__repr__] does not raise on the row: type and state are codes of the
    enumerations and the event is in the session. *)
Definition repr_defined (s : Session) (b : row) : Prop :=
  is_Some (by_value ArtifactType (type b)) ∧
  is_Some (by_value ArtifactBuildState (state b)) ∧
  is_Some (event_of b s).

(** Primary keys are unique and every row can be printed. *)
Definition well_formed (s : Session) : Prop :=
  NoDup (id <$> artifact_builds_table s) ∧
  Forall (repr_defined s) (artifact_builds_table s).

Definition terminal (st : Z) : Prop := st ∈ [DONE; FAILED; CANCELED].
Definition cascading (st : Z) : Prop := st ∈ [FAILED; CANCELED].

#[global] Instance terminal_dec st : Decision (terminal st).
Proof. unfold terminal. apply _. Defined.
#[global] Instance cascading_dec st : Decision (cascading st).
Proof. unfold cascading. apply _. Defined.

(** The level of the record that [transition] logs for a state. *)
Definition level_of (st : Z) : level :=
  if bool_decide (st = FAILED) then ERROR else INFO.

(** What [transition] writes to a row whose state differs from [st]. *)
Definition enter (st : Z) (reason : string) (now : Z) (b : row) : row :=
  let b := with_state_reason (Some reason) (with_state st b) in
  if decide (terminal st) then with_time_completed (Some now) b else b.

(** The session after the call has logged [rec] and written the row of
    [self], before it turns to the dependent builds. *)
Definition entered `{Clock} (self st : Z) (reason : string) (rec : log_record)
    (s : Session) : Session :=
  MkSession (events_table s)
    (update_rows self (enter st reason (utcnow_at (clock s)))
       (artifact_builds_table s))
    (log s ++ [rec])
    (if decide (terminal st) then S (clock s) else clock s).

(** The row of a build as a call of [transition] to [st], on this build or
    on another, may leave it: as it was, or moved to [st] from another
    state, with some reason and at some time. *)
Definition touched (st : Z) (b b' : row) : Prop :=
  ∃ reason now, b' = enter st reason now b.

Definition moved (st : Z) (b b' : row) : Prop :=
  b' = b ∨ (state b ≠ st ∧ touched st b b').

Definition step (st : Z) (s s' : Session) : Prop :=
  events_table s' = events_table s ∧
  Forall2 (moved st) (artifact_builds_table s) (artifact_builds_table s').

(** What a call [transition n self st reason] that returns has done to the
    session: rows were only moved to [st]; [self] is in state [st]; when
    [st] cascades, every build whose state changed has all its dependents
    in state [st]; every build whose state changed is [self] or depends
    on it; and when [st] does not cascade, it is [self]. *)
Definition post (st self : Z) (s s' : Session) : Prop :=
  step st s s' ∧
  state <$> row_of self (artifact_builds_table s') = Some st ∧
  (cascading st → ∀ i, changed st s s' i →
     ∀ c, c ∈ artifact_builds_table s' → dep_on_id c = Some i → state c = st) ∧
  (∀ i, changed st s s' i →
     i = self ∨ depends (artifact_builds_table s) i self) ∧
  (¬ cascading st → ∀ i, changed st s s' i → i = self).


End WithTypes.
End spec.

(** ** A concrete instance, for runs of the model

    The four states numbered from zero in the order [BUILD], [DONE],
    [FAILED], [CANCELED], four artifact types, and a clock that advances
    by one at every reading. *)

Definition sample_types : Types := {|
  BUILD := 0; DONE := 1; FAILED := 2; CANCELED := 3;
  ArtifactType := [ enum.Member "RPM" 0; enum.Member "IMAGE" 1;
                    enum.Member "MODULE" 2; enum.Member "TEST" 3 ]
|}.

Definition sample_clock : Clock := λ n, 1000 + Z.of_nat n.

(** A database that takes integers of 64 bits for an integer column, and
    strings, bools and floats as well. *)
Definition sample_backend : Backend := λ v,
  match v with
  | PyInt z => (- 2 ^ 63 <=? z) && (z <? 2 ^ 63)
  | PyBool _ | PyFloat _ | PyStr _ => true
  | PyNone | PyClass _ => false
  end.

(** The float [2.0]. *)
Definition two_point_zero : pyval := PyFloat (QArith_base.Qmake 2 1).

(** Event E with message id "m1" and the chain A <- B <- C of its builds
    ([B.dep_on = A], [C.dep_on = B]), all in state [BUILD]. *)
Definition event_E : events.row :=
  events.Row 1 "m1" "RHSA-2017:0001" (PyInt 3) true None.

Definition build_A : artifact_builds.row :=
  artifact_builds.Row 1 "A" None None 1 0 None 1000 None None (Some 1) None None.
Definition build_B : artifact_builds.row :=
  artifact_builds.Row 2 "B" None None 1 0 None 1001 None (Some 1) (Some 1) None None.
Definition build_C : artifact_builds.row :=
  artifact_builds.Row 3 "C" None None 1 0 None 1002 None (Some 2) (Some 1) None None.

Definition chain : Session :=
  MkSession [event_E] [build_A; build_B; build_C] [] 3.

(** A session that holds no row. *)
Definition empty_session : Session := MkSession [] [] [] 0.

(** The session of a result, and whether it is a normal return. *)
Definition session_of {A} (r : result A * Session) : Session := r.2.
Definition returned {A} (r : result A * Session) : bool :=
  match r.1 with Ok _ => true | Raise _ => false end.

(** The rank used for the chain: the primary key. *)
Definition by_key (i : Z) : nat := Z.to_nat i.

(** Runs on the chain, under the sample codes and clock. *)
Section SampleRuns.
#[local] Existing Instance sample_types.
#[local] Existing Instance sample_clock.








End SampleRuns.

(** ** Further tables and methods *)

(** [EventDependency], table "event_dependencies" *)
Module event_dependencies.
Record row : Type := Row {
  id : Z;
  event_id : Z;
  event_dependency_id : Z
}.
End event_dependencies.

(** [User], table "users" *)
Module users.
Record row : Type := Row {
  id : Z;
  username : string
}.
End users.

(** class [User]; the users of the session, written or pending, are
    passed in and out. *)
Module User.

(** The flush that precedes a query: [username] is [unique=True], and the
    flush raises when it writes a pending user whose name another user
    has.  The bound of [String(200)] is enforced by some databases only;
    names are taken to be within it. *)
Definition flush (us : list users.row) : result unit :=
  if decide (NoDup (users.username <$> us)) then Ok tt
  else Raise (IntegrityError "users.username").

(** [find_user_by_name]: [query(cls).filter(cls.username == username)[0]],
    [None] on [IndexError]; the exception of the flush is not caught. *)
Definition find_user_by_name (username : string) (us : list users.row)
    : result (option users.row) :=
  match flush us with
  | Ok _ =>
      match filter (λ u, users.username u = username) us with
      | u :: _ => Ok (Some u)
      | [] => Ok None
      end
  | Raise e => Raise e
  end.

(** [create_user]: [user = cls(username=username)], [session.add(user)];
    the user is pending, no statement is executed. *)
Definition create_user (username : string) (us : list users.row)
    : users.row * list users.row :=
  let user := users.Row (next_id (users.id <$> us)) username in
  (user, (us ++ [user])%list).

End User.

(** class [Event], the methods on dependencies, released events and
    builds. *)
Module EventMethods.
Section EventMethods.
Context `{Types} `{Clock} `{Backend}.

(** [get_unreleased]: [query(cls).filter_by(released=False).all()], after
    the flush of the session *)
Definition get_unreleased : M (list events.row) :=
  autoflush ;;;
  gets (λ s, filter (λ e, events.released e = false) (events_table s)).



(** [self.builds]: the builds whose event is [self] *)
Definition builds (self : events.row) : M (list artifact_builds.row) :=
  gets (λ s, filter (λ b, artifact_builds.event_id b = Some (events.id self))
               (artifact_builds_table s)).

(** [builds_transition]; [fuel] is the fuel of each call of [transition]. *)
Definition builds_transition (fuel : nat) (self : events.row) (state : Z)
    (reason : string) : M unit :=
  bs <- builds self ;;
  for_each bs (λ build,
    ArtifactBuild.transition fuel (artifact_builds.id build) state reason).

(** [__repr__]: ["<Event %s, %r, %s>" % (self.message_id, self.event_type,
    self.search_key)] *)
Definition repr (self : events.row) : result (string * string * string) :=
  match Event.event_type self with
  | Ok cls => Ok (events.message_id self, cls, events.search_key self)
  | Raise e => Raise e
  end.

End EventMethods.
End EventMethods.

(** class [ArtifactBuild], the walk to the root of the [dep_on] chain. *)
Module ArtifactBuildMethods.
Import artifact_builds ArtifactBuild.

(** [b.dep_on]: the build that [dep_on_id] names, [None] when it names
    none. *)
Definition dep_on (b : row) (s : Session) : option row :=
  match dep_on_id b with
  | Some p => row_of p (artifact_builds_table s)
  | None => None
  end.

(** The [while dep_on:] loop of [get_root_dep_on], entered with a build
    in [dep_on]; the result is [None] when [fuel] iterations did not end
    it. *)
Fixpoint root_loop (fuel : nat) (s : Session) (dep_on_ : row) : option row :=
  match fuel with
  | O => None
  | S fuel =>
      match dep_on dep_on_ s with
      | Some dep => root_loop fuel s dep
      | None => Some dep_on_
      end
  end.

(** [get_root_dep_on]: [Some r] when the method returns [r]. *)
Definition get_root_dep_on (fuel : nat) (self : row) (s : Session)
    : option (option row) :=
  match dep_on self s with
  | Some d => Some <$> root_loop fuel s d
  | None => Some None
  end.

End ArtifactBuildMethods.

Module Import spec_more.
Import artifact_builds ArtifactBuild.

(** Every [dep_on_id] names a row of the table. *)
Definition linked (bs : list row) : Prop :=
  Forall (λ b, ∀ p, dep_on_id b = Some p → p ∈ id <$> bs) bs.

Section WithTypes.
Context `{Types}.

(** The row of a dependent build as a cascade to [st] may leave it: as it
    was, or moved to [st] with the reason of the cascade. *)
Definition cascaded (st : Z) (b b' : row) : Prop :=
  b' = b ∨ (state b ≠ st ∧ ∃ now, b' = enter st cascade_reason now b).



End WithTypes.
End spec_more.

(** The chain with a second event F and a build D of F that depends on
    A. *)
Definition event_F : events.row :=
  events.Row 2 "m2" "RHSA-2017:0002" (PyInt 3) true None.
Definition build_D : artifact_builds.row :=
  artifact_builds.Row 4 "D" None None 1 0 None 1003 None (Some 1) (Some 2) None None.
Definition two_events : Session :=
  MkSession [event_E; event_F] [build_A; build_B; build_C; build_D] [] 4.

(** Two builds that depend on each other. *)
Definition build_P : artifact_builds.row :=
  artifact_builds.Row 1 "P" None None 1 0 None 1000 None (Some 2) (Some 1) None None.
Definition build_Q : artifact_builds.row :=
  artifact_builds.Row 2 "Q" None None 1 0 None 1001 None (Some 1) (Some 1) None None.
Definition cycle : Session :=
  MkSession [event_E] [build_P; build_Q] [] 2.

(** * Proofs *)

(** ** [==] and [in] *)

Section Equality.

Lemma py_eq_int v z : py_eq v (PyInt z) = true ↔ as_int v = Some z.
Proof.
  assert (∀ n : Z, QArith_base.Qeq_bool (QArith_base.inject_Z n)
                     (QArith_base.inject_Z z) = true ↔ n = z) as Hint.
  { intros n. rewrite QArith_base.Qeq_bool_iff. unfold QArith_base.Qeq. simpl.
    lia. }
  destruct v as [|n|b|q|s|c]; unfold py_eq; simpl; try (split; [done | done]).
  - rewrite Hint. split; congruence.
  - rewrite Hint. split; congruence.
  - rewrite QArith_base.Qeq_bool_iff. unfold QArith_base.Qeq. simpl.
    destruct q as [n d]. simpl. split.
    + intros Hq. rewrite Z.mul_1_r in Hq. subst n.
      rewrite Z.mod_mul by lia. simpl. by rewrite Z.div_mul by lia.
    + destruct (Z.eqb_spec (n mod Z.pos d) 0) as [Hm|]; [|done].
      intros [= <-]. rewrite Z.mul_1_r.
      rewrite Z.mul_comm. by apply Z.div_exact.
Qed.

Lemma py_eq_str v n : py_eq v (PyStr n) = true ↔ v = PyStr n.
Proof.
  destruct v; unfold py_eq; simpl; try (split; [done | done]).
  apply bool_decide_eq_true.
Qed.

Lemma py_in_ints v zs :
  py_in v (PyInt <$> zs) = true ↔ ∃ z, as_int v = Some z ∧ z ∈ zs.
Proof.
  unfold py_in. induction zs as [|z0 zs IH]; simpl.
  - split; [done | by intros (? & _ & ?%not_elem_of_nil)].
  - rewrite orb_true_iff, IH, py_eq_int. split.
    + intros [Hv | (z & Hv & Hz)]; [exists z0 | exists z];
        (split; [done|]); [left | by right].
    + intros (z & Hv & [->|Hz]%elem_of_cons); [by left | right; eauto].
Qed.

Lemma py_in_strs v ns :
  py_in v (PyStr <$> ns) = true ↔ ∃ n, v = PyStr n ∧ n ∈ ns.
Proof.
  unfold py_in. induction ns as [|n0 ns IH]; simpl.
  - split; [done | by intros (? & _ & ?%not_elem_of_nil)].
  - rewrite orb_true_iff, IH, py_eq_str. split.
    + intros [Hv | (n & Hv & Hn)]; [exists n0 | exists n];
        (split; [done|]); [left | by right].
    + intros (n & Hv & [->|Hn]%elem_of_cons); [by left | right; eauto].
Qed.

End Equality.

(** ** Rows and their links *)

Section Rows.
Context `{Types}.
Import artifact_builds ArtifactBuild.
Implicit Types (bs : list row) (b : row) (i : Z).

Lemma row_of_cons i b bs :
  row_of i (b :: bs) = if decide (id b = i) then Some b else row_of i bs.
Proof. unfold row_of. rewrite filter_cons. by case_decide. Qed.

Lemma row_of_Some i bs b : row_of i bs = Some b → b ∈ bs ∧ id b = i.
Proof.
  induction bs as [|b0 bs IH]; [done|].
  rewrite row_of_cons. case_decide.
  - intros [= ->]. split; [left | done].
  - intros Hb. destruct (IH Hb). split; [by right | done].
Qed.

Lemma row_of_None i bs : row_of i bs = None → i ∉ id <$> bs.
Proof.
  induction bs as [|b0 bs IH]; [intros _; apply not_elem_of_nil|].
  rewrite row_of_cons. case_decide; [done|].
  intros Hn. rewrite fmap_cons, not_elem_of_cons. split; [congruence | auto].
Qed.

Lemma row_of_NoDup bs b :
  NoDup (id <$> bs) → b ∈ bs → row_of (id b) bs = Some b.
Proof.
  induction bs as [|b0 bs IH]; [by intros _ ?%not_elem_of_nil|].
  rewrite fmap_cons, NoDup_cons. intros [Hn Hnd] Hin.
  rewrite row_of_cons. apply elem_of_cons in Hin as [->|Hin].
  - by rewrite decide_True.
  - rewrite decide_False; [auto|].
    intros Heq. apply Hn. rewrite Heq. by apply list_elem_of_fmap_2.
Qed.

Lemma row_of_update_rows i j (f : row → row) bs :
  (∀ b, id (f b) = id b) →
  row_of i (update_rows j f bs)
  = (λ b, if decide (id b = j) then f b else b) <$> row_of i bs.
Proof.
  intros Hf. unfold update_rows. induction bs as [|b0 bs IH]; [done|].
  rewrite fmap_cons, !row_of_cons.
  assert (id (if decide (id b0 = j) then f b0 else b0) = id b0) as ->
    by (case_decide; auto).
  by case_decide.
Qed.

Lemma row_of_update_rows_hit self (f : row → row) bs b :
  (∀ b, id (f b) = id b) → row_of self bs = Some b →
  row_of self (update_rows self f bs) = Some (f b).
Proof.
  intros Hf Hb. rewrite row_of_update_rows, Hb by done. simpl.
  rewrite decide_True; [done | by apply row_of_Some in Hb as [_ ?]].
Qed.

Lemma row_of_update_rows_miss i self (f : row → row) bs :
  (∀ b, id (f b) = id b) → i ≠ self →
  row_of i (update_rows self f bs) = row_of i bs.
Proof.
  intros Hf Hi. rewrite row_of_update_rows by done.
  destruct (row_of i bs) as [b|] eqn:Hb; [|done]. simpl.
  rewrite decide_False; [done|]. apply row_of_Some in Hb as [_ ?]. congruence.
Qed.

Lemma update_rows_compose self (f g : row → row) bs :
  (∀ b, id (f b) = id b) →
  update_rows self g (update_rows self f bs) = update_rows self (g ∘ f) bs.
Proof.
  intros Hf. unfold update_rows. rewrite <-list_fmap_compose.
  apply list_fmap_ext. intros _ b _. simpl.
  destruct (decide (id b = self)) as [Hb|Hb].
  - by rewrite decide_True by (by rewrite Hf).
  - by rewrite decide_False.
Qed.

Lemma enter_id st reason now b : id (enter st reason now b) = id b.
Proof. unfold enter. by case_decide. Qed.

Lemma enter_state st reason now b : state (enter st reason now b) = st.
Proof. unfold enter. by case_decide. Qed.

Lemma touched_enter st reason now b : touched st b (enter st reason now b).
Proof. by exists reason, now. Qed.

Lemma moved_refl st b : moved st b b.
Proof. by left. Qed.

Lemma moved_links st b b' :
  moved st b b' →
  id b' = id b ∧ dep_on_id b' = dep_on_id b ∧ event_id b' = event_id b ∧
  type b' = type b ∧ (state b' = state b ∨ state b' = st).
Proof.
  intros [->|(_ & r & t & ->)]; [auto 10|].
  unfold enter. case_decide; simpl; auto 10.
Qed.

Lemma moved_state_eq st b b' : moved st b b' → state b = st → b' = b.
Proof. intros [->|(Hne & _)]; [done | congruence]. Qed.

Lemma moved_stays st b b' : moved st b b' → state b = st → state b' = st.
Proof. intros Hm Hs. by rewrite (moved_state_eq _ _ _ Hm Hs). Qed.

Lemma moved_unchanged st b b' : moved st b b' → state b' ≠ st → b' = b.
Proof.
  intros [->|(_ & r & t & ->)]; [done|]. by rewrite enter_state.
Qed.

Lemma moved_trans st b1 b2 b3 : moved st b1 b2 → moved st b2 b3 → moved st b1 b3.
Proof.
  intros [->|(Hne & r & t & ->)]; [done|].
  intros Hm. rewrite (moved_state_eq _ _ _ Hm); [|apply enter_state].
  right. split; [done | by exists r, t].
Qed.

Lemma Forall2_moved_refl st bs : Forall2 (moved st) bs bs.
Proof. apply Forall_Forall2_diag, Forall_forall. intros; apply moved_refl. Qed.

Lemma Forall2_moved_trans st bs1 bs2 bs3 :
  Forall2 (moved st) bs1 bs2 → Forall2 (moved st) bs2 bs3 →
  Forall2 (moved st) bs1 bs3.
Proof. apply Forall2_trans. intros ???; apply moved_trans. Qed.

Lemma Forall2_moved_ids st bs bs' :
  Forall2 (moved st) bs bs' → id <$> bs' = id <$> bs.
Proof.
  induction 1 as [|b b' bs bs' Hm _ IH]; [done|].
  rewrite !fmap_cons, IH. by destruct (moved_links _ _ _ Hm) as [-> _].
Qed.

Lemma Forall2_moved_row_of st bs bs' i :
  Forall2 (moved st) bs bs' →
  option_Forall2 (moved st) (row_of i bs) (row_of i bs').
Proof.
  induction 1 as [|b b' bs bs' Hm _ IH]; [constructor|].
  rewrite !row_of_cons. destruct (moved_links _ _ _ Hm) as [-> _].
  case_decide; [by constructor | done].
Qed.

Lemma Forall2_moved_row_of_l st bs bs' i b :
  Forall2 (moved st) bs bs' → row_of i bs = Some b →
  ∃ b', row_of i bs' = Some b' ∧ moved st b b'.
Proof.
  intros HF Hb. pose proof (Forall2_moved_row_of _ _ _ i HF) as Ho.
  rewrite Hb in Ho. inversion Ho; eauto.
Qed.

Lemma Forall2_moved_row_of_r st bs bs' i b' :
  Forall2 (moved st) bs bs' → row_of i bs' = Some b' →
  ∃ b, row_of i bs = Some b ∧ moved st b b'.
Proof.
  intros HF Hb. pose proof (Forall2_moved_row_of _ _ _ i HF) as Ho.
  rewrite Hb in Ho. inversion Ho; eauto.
Qed.

Lemma Forall2_moved_elem_r st bs bs' b' :
  Forall2 (moved st) bs bs' → b' ∈ bs' → ∃ b, b ∈ bs ∧ moved st b b'.
Proof.
  induction 1 as [|b0 b0' bs bs' Hm _ IH]; [by intros ?%not_elem_of_nil|].
  intros [->|Hin]%elem_of_cons.
  - exists b0. split; [left | done].
  - destruct (IH Hin) as (b & ? & ?). exists b. split; [by right | done].
Qed.

Lemma Forall2_moved_pending st bs bs' :
  Forall2 (moved st) bs bs' → (pending st bs' ≤ pending st bs)%nat.
Proof.
  unfold pending. induction 1 as [|b b' bs bs' Hm _ IH]; [done|].
  rewrite !filter_cons.
  destruct (decide (state b' ≠ st)) as [Hs|Hs];
    destruct (decide (state b ≠ st)) as [Hs'|Hs']; simpl; try lia.
  rewrite (moved_unchanged _ _ _ Hm Hs) in Hs. done.
Qed.

End Rows.

(** ** One call of [transition] *)

Section Call.
Context `{Types} `{Clock}.
Import artifact_builds ArtifactBuild.
Implicit Types (bs : list row) (b : row) (i : Z) (s : Session).

Lemma by_value_values (E : Enum) v : is_Some (by_value E v) ↔ v ∈ values E.
Proof.
  unfold by_value, values. induction E as [|m E IH].
  - split; [by intros [? ?] | by intros ?%not_elem_of_nil].
  - rewrite filter_cons, fmap_cons, elem_of_cons. case_decide.
    + split; [auto | by eexists].
    + rewrite IH. split; [auto | intros [?|?]; congruence].
Qed.

Lemma name_of_Ok (E : Enum) v :
  is_Some (by_value E v) → ∃ nm, name_of E v = Ok nm.
Proof. intros [m Hm]. unfold name_of. rewrite Hm. eauto. Qed.

Lemma validate_code (E : Enum) key z :
  z ∈ values E → validate E key (PyInt z) = Ok z.
Proof.
  intros Hz. unfold validate, validator.
  by rewrite (proj2 (py_in_ints (PyInt z) (values E))) by (by exists z).
Qed.

Lemma bind_eq {A B} (m : M A) (k : A → M B) s :
  bind m k s = match m s with
               | (Ok a, s') => k a s'
               | (Raise e, s') => (Raise e, s')
               end.
Proof. done. Qed.

Lemma load_Ok self s b :
  row_of self (artifact_builds_table s) = Some b → load self s = (Ok b, s).
Proof. intros Hb. unfold load. rewrite bind_eq. unfold gets. by rewrite Hb. Qed.

Lemma repr_Ok self s b :
  row_of self (artifact_builds_table s) = Some b → repr_defined s b →
  ∃ r, repr self s = (Ok r, s).
Proof.
  intros Hb (Ht & Hs & [ev Hev]).
  destruct (name_of_Ok _ _ Ht) as [tn Htn], (name_of_Ok _ _ Hs) as [sn Hsn].
  unfold repr. rewrite bind_eq, (load_Ok _ _ _ Hb).
  rewrite bind_eq. unfold lift at 1. rewrite Htn.
  rewrite bind_eq. unfold lift at 1. rewrite Hsn.
  rewrite bind_eq. unfold gets at 1. rewrite Hev. eauto.
Qed.

Lemma transition_same n self st reason s b :
  row_of self (artifact_builds_table s) = Some b → state b = st →
  repr_defined s b →
  ∃ r nm, repr self s = (Ok r, s) ∧
          name_of ArtifactBuildState st = Ok nm ∧
          transition (S n) self st reason s
          = (Ok tt, logged (LogRecord (level_of st) r nm reason) s).
Proof.
  intros Hb Hst Hr. destruct (repr_Ok _ _ _ Hb Hr) as [r Hrepr].
  destruct Hr as (_ & Hs & _). rewrite Hst in Hs.
  destruct (name_of_Ok _ _ Hs) as [nm Hnm]. exists r, nm.
  split; [done|]. split; [done|].
  cbn [transition]. rewrite bind_eq. unfold lift at 1. rewrite Hnm.
  rewrite bind_eq, Hrepr. rewrite bind_eq. unfold log_fnc at 1, modify at 1.
  rewrite bind_eq, (load_Ok _ _ b) by done.
  by rewrite bool_decide_eq_true_2.
Qed.

Lemma transition_enter n self st reason s b :
  row_of self (artifact_builds_table s) = Some b → state b ≠ st →
  repr_defined s b → is_Some (by_value ArtifactBuildState st) →
  ∃ r nm,
    transition (S n) self st reason s
    = (if decide (cascading st) then
         builds <- depending_artifact_builds self ;;
         for_each builds (λ build,
           b <- load self ;;
           transition n (id build) (state b) cascade_reason)
       else ret tt)
        (entered self st reason (LogRecord (level_of st) r nm reason) s).
Proof.
  intros Hb Hst Hr Hv. destruct (repr_Ok _ _ _ Hb Hr) as [r Hrepr].
  destruct (name_of_Ok _ _ Hv) as [nm Hnm]. exists r, nm.
  assert (id b = self) as Hid by (by apply row_of_Some in Hb as [_ ?]).
  cbn [transition]. rewrite bind_eq. unfold lift at 1. rewrite Hnm.
  rewrite bind_eq, Hrepr. rewrite bind_eq. unfold log_fnc at 1, modify at 1.
  rewrite bind_eq, (load_Ok _ _ b) by done.
  rewrite bool_decide_eq_false_2 by done.
  rewrite bind_eq. unfold setattr_state at 1. rewrite bind_eq.
  unfold lift at 1, validate_state.
  rewrite validate_code by (by apply by_value_values).
  unfold update at 1, modify at 1.
  rewrite bind_eq. unfold update at 1, modify at 1.
  cbn [artifact_builds_table set_artifact_builds events_table log clock].
  rewrite update_rows_compose by done.
  rewrite bind_eq.
  erewrite load_Ok; [|by apply row_of_update_rows_hit].
  change (state ((with_state_reason (Some reason) ∘ with_state st) b)) with st.
  unfold set_artifact_builds.
  cbn [artifact_builds_table events_table log clock].
  rewrite bind_eq. unfold entered, enter, level_of.
  change (st ∈ [DONE; FAILED; CANCELED]) with (terminal st).
  destruct (decide (terminal st)) as [Ht|Ht].
  - rewrite bool_decide_eq_true_2 by done.
    rewrite bind_eq. unfold utcnow at 1.
    cbn [artifact_builds_table events_table log clock].
    unfold update at 1, modify at 1, set_artifact_builds.
    cbn [artifact_builds_table events_table log clock].
    rewrite update_rows_compose by done.
    rewrite bind_eq.
    erewrite load_Ok; [|by apply row_of_update_rows_hit].
    cbn [compose with_time_completed with_state_reason with_state state].
    change (st ∈ [FAILED; CANCELED]) with (cascading st).
    destruct (decide (cascading st)) as [Hc|Hc].
    + by rewrite bool_decide_eq_true_2 by done.
    + by rewrite bool_decide_eq_false_2 by done.
  - rewrite bool_decide_eq_false_2 by done. unfold ret at 1.
    rewrite bind_eq.
    erewrite load_Ok; [|by apply row_of_update_rows_hit].
    cbn [compose with_time_completed with_state_reason with_state state].
    change (st ∈ [FAILED; CANCELED]) with (cascading st).
    destruct (decide (cascading st)) as [Hc|Hc].
    + by rewrite bool_decide_eq_true_2 by done.
    + by rewrite bool_decide_eq_false_2 by done.
Qed.

End Call.

(** ** Steps between sessions *)

Section Steps.
Context `{Types} `{Clock}.
Import artifact_builds ArtifactBuild.
Implicit Types (bs : list row) (b : row) (i : Z) (s : Session).

Lemma step_refl st s : step st s s.
Proof. split; [done | apply Forall2_moved_refl]. Qed.

Lemma step_trans st s1 s2 s3 : step st s1 s2 → step st s2 s3 → step st s1 s3.
Proof.
  intros [He1 Hb1] [He2 Hb2]. split; [congruence|].
  by eapply Forall2_moved_trans.
Qed.

Lemma step_logged st rec s : step st s (logged rec s).
Proof. split; [done | apply Forall2_moved_refl]. Qed.

Lemma update_rows_moved st self f bs b :
  NoDup (id <$> bs) → row_of self bs = Some b → state b ≠ st →
  touched st b (f b) → Forall2 (moved st) bs (update_rows self f bs).
Proof.
  intros Hnd Hb Hst Hf. unfold update_rows.
  apply Forall2_fmap_r, Forall_Forall2_diag, Forall_forall.
  intros b0 Hin. unfold compose. case_decide as Hid; [|by left].
  assert (b0 = b) as ->.
  { apply row_of_NoDup in Hin; [|done]. rewrite Hid in Hin. congruence. }
  right. done.
Qed.

Lemma update_rows_pending st self f bs b :
  (∀ b, state (f b) = st) → row_of self bs = Some b → state b ≠ st →
  (pending st (update_rows self f bs) < pending st bs)%nat.
Proof.
  intros Hf Hb Hst. unfold pending, update_rows.
  assert (∀ l : list row,
    (length (filter (λ b, state b ≠ st)
       ((λ b, if decide (id b = self) then f b else b) <$> l))
     ≤ length (filter (λ b, state b ≠ st) l))%nat) as Hle.
  { induction l as [|b0 l IH]; [done|].
    rewrite fmap_cons, !filter_cons.
    destruct (decide (id b0 = self)).
    - rewrite decide_False by (by rewrite Hf; intros []).
      case_decide; simpl; lia.
    - case_decide; simpl; lia. }
  induction bs as [|b0 bs IH]; [done|].
  rewrite row_of_cons in Hb. rewrite fmap_cons, !filter_cons.
  destruct (decide (id b0 = self)).
  - injection Hb as ->.
    rewrite decide_False by (by rewrite Hf; intros []).
    rewrite decide_True by done. specialize (Hle bs). simpl. lia.
  - specialize (IH Hb). case_decide; simpl; lia.
Qed.

Lemma step_entered st self reason rec s b :
  NoDup (id <$> artifact_builds_table s) →
  row_of self (artifact_builds_table s) = Some b → state b ≠ st →
  step st s (entered self st reason rec s).
Proof.
  intros Hnd Hb Hst. split; [done|]. simpl.
  eapply update_rows_moved; eauto using touched_enter.
Qed.

Lemma step_ids st s s' :
  step st s s' →
  id <$> artifact_builds_table s' = id <$> artifact_builds_table s.
Proof. intros [_ HF]. by eapply Forall2_moved_ids. Qed.

Lemma step_pending st s s' :
  step st s s' →
  (pending st (artifact_builds_table s')
   ≤ pending st (artifact_builds_table s))%nat.
Proof. intros [_ HF]. by apply Forall2_moved_pending. Qed.

Lemma step_event_of st s s' b b' :
  step st s s' → moved st b b' → event_of b' s' = event_of b s.
Proof.
  intros [He _] Hm. unfold event_of.
  destruct (moved_links _ _ _ Hm) as (_ & _ & -> & _). by rewrite He.
Qed.

Lemma step_well_formed st s s' :
  step st s s' → is_Some (by_value ArtifactBuildState st) →
  well_formed s → well_formed s'.
Proof.
  intros Hstep Hv [Hnd Hall]. split.
  - by rewrite (step_ids _ _ _ Hstep).
  - apply Forall_forall. intros b' Hin.
    destruct Hstep as [He HF].
    destruct (Forall2_moved_elem_r _ _ _ _ HF Hin) as (b & Hb & Hm).
    rewrite Forall_forall in Hall. destruct (Hall b Hb) as (Ht & Hs & Hev).
    destruct (moved_links _ _ _ Hm) as (_ & _ & _ & Hty & Hst).
    repeat split.
    + by rewrite Hty.
    + by destruct Hst as [-> | ->].
    + by rewrite (step_event_of st s s' b b').
Qed.

Lemma step_row_of st s s' i b :
  step st s s' → row_of i (artifact_builds_table s) = Some b →
  ∃ b', row_of i (artifact_builds_table s') = Some b' ∧ moved st b b'.
Proof. intros [_ HF]. by apply Forall2_moved_row_of_l. Qed.

Lemma step_row_of_inv st s s' i b' :
  step st s s' → row_of i (artifact_builds_table s') = Some b' →
  ∃ b, row_of i (artifact_builds_table s) = Some b ∧ moved st b b'.
Proof. intros [_ HF]. by apply Forall2_moved_row_of_r. Qed.

Lemma step_state_stays st s s' i :
  step st s s' →
  state <$> row_of i (artifact_builds_table s) = Some st →
  state <$> row_of i (artifact_builds_table s') = Some st.
Proof.
  intros Hstep Hi.
  destruct (row_of i (artifact_builds_table s)) as [b|] eqn:Hb; [|done].
  destruct (step_row_of _ _ _ _ _ Hstep Hb) as (b' & -> & Hm).
  injection Hi as Hi. simpl. f_equal. by eapply moved_stays.
Qed.

Lemma step_depends st s s' i j :
  step st s s' →
  depends (artifact_builds_table s') i j →
  depends (artifact_builds_table s) i j.
Proof.
  intros Hstep. induction 1 as [d b' a Hb' Hdep|d b' p a Hb' Hdep _ IH].
  - destruct (step_row_of_inv _ _ _ _ _ Hstep Hb') as (b & Hb & Hm).
    destruct (moved_links _ _ _ Hm) as (_ & Hl & _).
    eapply depends_direct; [done | by rewrite <-Hl].
  - destruct (step_row_of_inv _ _ _ _ _ Hstep Hb') as (b & Hb & Hm).
    destruct (moved_links _ _ _ Hm) as (_ & Hl & _).
    eapply depends_step; [done | by rewrite <-Hl | done].
Qed.

Lemma depends_trans bs i j k :
  depends bs i j → depends bs j k → depends bs i k.
Proof.
  induction 1 as [d b a Hb Hdep|d b p a Hb Hdep _ IH]; intros Hjk.
  - by eapply depends_step.
  - eapply depends_step; eauto.
Qed.

Lemma changed_split st s1 s2 s3 i :
  step st s1 s2 → changed st s1 s3 i →
  changed st s1 s2 i ∨ changed st s2 s3 i.
Proof.
  intros H12 (b & b3 & Hb & Hst & Hb3 & Hst3).
  destruct (step_row_of _ _ _ _ _ H12 Hb) as (b2 & Hb2 & Hm).
  destruct (decide (state b2 = st)).
  - left. by exists b, b2.
  - right. by exists b2, b3.
Qed.

Lemma step_children_stay st s s' i :
  step st s s' →
  (∀ c, c ∈ artifact_builds_table s → dep_on_id c = Some i → state c = st) →
  (∀ c, c ∈ artifact_builds_table s' → dep_on_id c = Some i → state c = st).
Proof.
  intros [_ HF] Hall c' Hin Hdep.
  destruct (Forall2_moved_elem_r _ _ _ _ HF Hin) as (c & Hc & Hm).
  destruct (moved_links _ _ _ Hm) as (_ & Hl & _).
  eapply moved_stays; [done|]. apply Hall; [done | by rewrite <-Hl].
Qed.

End Steps.

(** ** The cascade *)

Section Cascade.
Context `{Types} `{Clock}.
Import artifact_builds ArtifactBuild.
Implicit Types (bs : list row) (b : row) (i : Z) (s : Session).

(** The loop over the dependent builds, given that calls with fuel [n]
    behave. *)
Lemma for_each_post n self st :
  is_Some (by_value ArtifactBuildState st) →
  (∀ s c reason,
     well_formed s → is_Some (row_of c (artifact_builds_table s)) →
     (pending st (artifact_builds_table s) < n)%nat →
     ∃ s', transition n c st reason s = (Ok tt, s') ∧ post st c s s') →
  ∀ cs s,
    well_formed s →
    (∀ c, c ∈ cs → is_Some (row_of (id c) (artifact_builds_table s))) →
    state <$> row_of self (artifact_builds_table s) = Some st →
    (pending st (artifact_builds_table s) < n)%nat →
    ∃ s',
      for_each cs (λ build,
        b <- load self ;;
        transition n (id build) (state b) cascade_reason) s = (Ok tt, s') ∧
      step st s s' ∧
      (∀ c, c ∈ cs →
         state <$> row_of (id c) (artifact_builds_table s') = Some st) ∧
      (cascading st → ∀ i, changed st s s' i →
         ∀ c, c ∈ artifact_builds_table s' → dep_on_id c = Some i →
              state c = st) ∧
      (∀ i, changed st s s' i →
         ∃ c, c ∈ cs ∧
              (i = id c ∨ depends (artifact_builds_table s) i (id c))).
Proof.
  intros Hv IHn. induction cs as [|c cs IHcs]; intros s Hwf Hcs Hself Hn.
  - exists s. split; [done|]. split; [apply step_refl|].
    split; [by intros ? ?%not_elem_of_nil|].
    split.
    + intros _ i (b & b' & Hb & Hst & Hb' & Hst'). congruence.
    + intros i (b & b' & Hb & Hst & Hb' & Hst'). congruence.
  - cbn [for_each]. rewrite bind_eq, bind_eq.
    destruct (row_of self (artifact_builds_table s)) as [bself|] eqn:Hbself;
      [|done].
    injection Hself as Hself.
    rewrite (load_Ok _ _ _ Hbself), Hself.
    destruct (IHn s (id c) cascade_reason Hwf) as (s1 & -> & Hs1 & Hc1 & Hcl1 & Hpr1 & _);
      [apply Hcs; left | done |].
    assert (well_formed s1) as Hwf1 by (by eapply step_well_formed).
    destruct (IHcs s1 Hwf1) as (s2 & -> & Hs2 & Hc2 & Hcl2 & Hpr2).
    { intros c' Hc'. destruct (Hcs c') as [b Hb]; [by right|].
      destruct (step_row_of _ _ _ _ _ Hs1 Hb) as (b' & -> & _). by eexists. }
    { eapply step_state_stays; [done|]. by rewrite Hbself, <-Hself. }
    { pose proof (step_pending _ _ _ Hs1). lia. }
    exists s2. split; [done|]. split; [by eapply step_trans|].
    split; [|split].
    + intros c' [->|Hc']%elem_of_cons; [|by apply Hc2].
      by eapply step_state_stays.
    + intros Hcas i Hch.
      destruct (changed_split _ _ _ _ _ Hs1 Hch) as [Hch1|Hch2].
      * eapply step_children_stay; [done|]. by apply Hcl1.
      * by apply Hcl2.
    + intros i Hch.
      destruct (changed_split _ _ _ _ _ Hs1 Hch) as [Hch1|Hch2].
      * exists c. split; [left|]. destruct (Hpr1 i Hch1); auto.
      * destruct (Hpr2 i Hch2) as (c' & Hc' & Hi). exists c'.
        split; [by right|]. destruct Hi as [->|Hi]; [by left|].
        right. by eapply step_depends.
Qed.

Lemma changed_same_table st s s' i :
  artifact_builds_table s' = artifact_builds_table s → ¬ changed st s s' i.
Proof. intros Heq (b & b' & Hb & Hst & Hb' & Hst'). congruence. Qed.

Lemma changed_entered st self reason rec s i :
  changed st s (entered self st reason rec s) i → i = self.
Proof.
  intros (b & b' & Hb & Hst & Hb' & Hst').
  destruct (decide (i = self)) as [|Hne]; [done|]. exfalso.
  simpl in Hb'. rewrite row_of_update_rows_miss in Hb'
    by auto using enter_id. congruence.
Qed.

Lemma well_formed_row s i b :
  well_formed s → row_of i (artifact_builds_table s) = Some b →
  repr_defined s b.
Proof.
  intros [_ Hall] Hb. rewrite Forall_forall in Hall.
  apply Hall. by apply row_of_Some in Hb as [? _].
Qed.

(** Every call on a build of a well-formed session returns, given fuel
    for the builds not yet in the target state. *)
Lemma transition_post_row n :
  ∀ s self b st reason,
    is_Some (by_value ArtifactBuildState st) → well_formed s →
    row_of self (artifact_builds_table s) = Some b →
    (pending st (artifact_builds_table s) < n)%nat →
    ∃ s', transition n self st reason s = (Ok tt, s') ∧ post st self s s' ∧
          row_of self (artifact_builds_table s')
          = Some (if decide (state b = st) then b
                  else enter st reason (utcnow_at (clock s)) b).
Proof.
  induction n as [|n IHn]; intros s self b st reason Hv Hwf Hb Hn; [lia|].
  pose proof (well_formed_row _ _ _ Hwf Hb) as Hr.
  destruct (decide (state b = st)) as [Hst|Hst].
  - destruct (transition_same n self st reason s b Hb Hst Hr)
      as (r & nm & _ & _ & ->).
    eexists. split; [done|]. split; [|done]. split; [apply step_logged|].
    split; [by simpl; rewrite Hb; simpl; rewrite Hst|].
    split; [|split].
    + intros _ i Hch. by apply changed_same_table in Hch.
    + intros i Hch. by apply changed_same_table in Hch.
    + intros _ i Hch. by apply changed_same_table in Hch.
  - destruct (transition_enter n self st reason s b Hb Hst Hr Hv)
      as (r & nm & ->).
    set (s1 := entered self st reason _ s).
    assert (step st s s1) as Hs1 by (eapply step_entered; [apply Hwf|done..]).
    assert (row_of self (artifact_builds_table s1)
            = Some (enter st reason (utcnow_at (clock s)) b)) as Hrow.
    { simpl. erewrite row_of_update_rows_hit; eauto using enter_id. }
    assert (state <$> row_of self (artifact_builds_table s1) = Some st) as Hself.
    { rewrite Hrow. simpl. by rewrite enter_state. }
    destruct (decide (cascading st)) as [Hc|Hc].
    + rewrite bind_eq. unfold depending_artifact_builds at 1, gets at 1.
      assert (well_formed s1) as Hwf1 by (by eapply step_well_formed).
      destruct (for_each_post n self st Hv) with
        (cs := filter (λ b, dep_on_id b = Some self) (artifact_builds_table s1))
        (s := s1) as (s2 & -> & Hs2 & Hc2 & Hcl2 & Hpr2); [|done| |done| |].
      { intros s0 c reason0 ? [b0 Hb0] ?.
        destruct (IHn s0 c b0 st reason0) as (s0' & ? & ? & _); eauto. }
      { intros c [_ Hc']%list_elem_of_filter. exists c.
        apply row_of_NoDup; [apply Hwf1 | done]. }
      { assert (pending st (artifact_builds_table s1)
                < pending st (artifact_builds_table s))%nat; [|lia].
        simpl. eapply update_rows_pending; eauto using enter_state. }
      assert (well_formed s2) as Hwf2 by (by eapply step_well_formed).
      exists s2. split; [done|]. split; last first.
      { destruct (step_row_of _ _ _ _ _ Hs2 Hrow) as (b2 & -> & Hm).
        f_equal. eapply moved_state_eq; [done | apply enter_state]. }
      split; [by eapply step_trans|].
      split; [by eapply step_state_stays|]. split; [|split].
      * intros _ i Hch.
        destruct (changed_split _ _ _ _ _ Hs1 Hch) as [Hch1|Hch2];
          [|by apply Hcl2].
        apply changed_entered in Hch1 as ->. intros c Hin Hdep.
        destruct Hs2 as [_ HF].
        destruct (Forall2_moved_elem_r _ _ _ _ HF Hin) as (c1 & Hc1 & Hm).
        destruct (moved_links _ _ _ Hm) as (Hid & Hl & _).
        assert (state <$> row_of (id c1) (artifact_builds_table s2) = Some st)
          as Hst2.
        { apply Hc2, list_elem_of_filter. split; [by rewrite <-Hl | done]. }
        rewrite <-Hid, row_of_NoDup in Hst2; [|apply Hwf2|done].
        by injection Hst2.
      * intros i Hch.
        destruct (changed_split _ _ _ _ _ Hs1 Hch) as [Hch1|Hch2].
        { left. by eapply changed_entered. }
        right. destruct (Hpr2 i Hch2) as (c & [Hdep Hin]%list_elem_of_filter & Hi).
        assert (depends (artifact_builds_table s) (id c) self) as Hcs.
        { eapply step_depends; [done|]. eapply depends_direct; [|done].
          apply row_of_NoDup; [apply Hwf1 | done]. }
        destruct Hi as [->|Hi]; [done|].
        eapply depends_trans; [|done]. by eapply step_depends.
      * intros Hnc. by destruct Hnc.
    + exists s1. split; [done|]. split; [|done]. split; [done|].
      split; [done|]. split; [done|]. split.
      * intros i Hch. left. by eapply changed_entered.
      * intros _ i Hch. by eapply changed_entered.
Qed.

Lemma transition_post n s self st reason :
  is_Some (by_value ArtifactBuildState st) → well_formed s →
  is_Some (row_of self (artifact_builds_table s)) →
  (pending st (artifact_builds_table s) < n)%nat →
  ∃ s', transition n self st reason s = (Ok tt, s') ∧ post st self s s'.
Proof.
  intros Hv Hwf [b Hb] Hn.
  destruct (transition_post_row n s self b st reason) as (s' & ? & ? & _);
    eauto.
Qed.

End Cascade.

(** ** Consequences of the postcondition *)

Section Consequences.
Context `{Types} `{Clock}.
Import artifact_builds ArtifactBuild.
Implicit Types (bs : list row) (b : row) (i : Z) (s : Session).


Lemma ranked_depends bs rk i j :
  ranked bs rk → depends bs i j → (rk j < rk i)%nat.
Proof.
  intros Hrk. unfold ranked in Hrk. rewrite Forall_forall in Hrk.
  induction 1 as [d b a Hb Hdep|d b p a Hb Hdep _ IH];
    apply row_of_Some in Hb as [Hin <-]; specialize (Hrk b Hin _ Hdep); lia.
Qed.

Lemma ranked_acyclic bs rk : ranked bs rk → acyclic bs.
Proof. intros Hrk i Hi. pose proof (ranked_depends _ _ _ _ Hrk Hi). lia. Qed.

(** A build whose row differs after the call has changed state. *)
Lemma post_unchanged st self s s' i :
  post st self s s' → ¬ changed st s s' i →
  row_of i (artifact_builds_table s') = row_of i (artifact_builds_table s).
Proof.
  intros ([_ HF] & _) Hn.
  pose proof (Forall2_moved_row_of st _ _ i HF) as Ho.
  inversion Ho as [b b' Hm Hb Hb'|]; [|done]. f_equal.
  destruct Hm as [->|(Hst & r & t & ->)]; [done|].
  exfalso. apply Hn. exists b, (enter st r t b).
  by rewrite <-Hb, <-Hb', enter_state.
Qed.


End Consequences.

(** ** The sample instance *)

Section Sample.
#[local] Existing Instance sample_types.
#[local] Existing Instance sample_clock.
Import artifact_builds ArtifactBuild.

Lemma sample_laws : TypesLaws.
Proof.
  split.
  - apply (bool_decide_unpack _). by vm_compute.
  - apply (bool_decide_unpack _). by vm_compute.
  - repeat constructor.
Qed.

Lemma sample_repr_defined (evs : list events.row) bs l c b :
  b ∈ [build_A; build_B; build_C] →
  repr_defined (MkSession (event_E :: evs) bs l c) b.
Proof.
  intros Hb. repeat apply elem_of_cons in Hb as [->|Hb];
    [..|by apply not_elem_of_nil in Hb]; repeat split; by eexists.
Qed.

Lemma chain_well_formed : well_formed chain.
Proof.
  split.
  - apply (bool_decide_unpack _). by vm_compute.
  - apply Forall_forall. intros b Hb. by apply sample_repr_defined.
Qed.

Lemma chain_ranked : ranked (artifact_builds_table chain) by_key.
Proof.
  unfold ranked. simpl. repeat apply Forall_cons_2; [..|apply Forall_nil_2];
    simpl; intros p [=]; subst; unfold by_key; lia.
Qed.

End Sample.

(** * The claims *)

(** ** Cascade (C1) *)

Section CascadeClaim.
Context `{Types} `{Clock}.
Import artifact_builds ArtifactBuild.


End CascadeClaim.

Section CascadeSample.
#[local] Existing Instance sample_types.
#[local] Existing Instance sample_clock.
Import artifact_builds ArtifactBuild.



End CascadeSample.

(** ** Repeated reports of the same state (C2, C7) *)

Section SameState.
Context `{Types} `{Clock}.
Import artifact_builds ArtifactBuild.

(** C2.  A call [transition(b, X, reason)] on a build [b] that is in state
    [X] (and can be printed for the log) returns and leaves the tables as
    they were: the row of [b], with its [state_reason] and
    [time_completed], and the row of every other build, so of every
    descendant; the clock is not read.  It calls [transition] on no
    dependent build: one unit of fuel suffices ([n] may be 0), where a
    nested call would raise [RecursionError], and the log grows by the one
    record of the call itself. *)
Theorem transition_same_state_is_noop n s self b X reason :
  row_of self (artifact_builds_table s) = Some b → state b = X →
  repr_defined s b →
  ∃ s', transition (S n) self X reason s = (Ok tt, s') ∧
    artifact_builds_table s' = artifact_builds_table s ∧
    row_of self (artifact_builds_table s') = Some b ∧
    events_table s' = events_table s ∧
    clock s' = clock s ∧
    length (log s') = S (length (log s)).
Proof.
  intros Hb Hst Hr.
  destruct (transition_same n self X reason s b Hb Hst Hr)
    as (r & nm & _ & _ & ->).
  eexists. split; [done|]. simpl. repeat split; [done|].
  rewrite length_app. simpl. lia.
Qed.

(** C7, as amended.  A call [transition(build, newState, reason)] with
    [newState] the state the build is in writes one log record, at error
    level when [newState] is [FAILED] and at info level otherwise, with the
    build as printed, the name of the state and the reason, and then
    returns before any write to the tables: the record is logged before
    the states are compared. *)
Theorem transition_same_state_logs_once n s self b X reason :
  row_of self (artifact_builds_table s) = Some b → state b = X →
  repr_defined s b →
  ∃ r nm,
    repr self s = (Ok r, s) ∧ name_of ArtifactBuildState X = Ok nm ∧
    transition (S n) self X reason s
    = (Ok tt, MkSession (events_table s) (artifact_builds_table s)
                (log s ++ [LogRecord (if bool_decide (X = FAILED) then ERROR
                                      else INFO) r nm reason])
                (clock s)).
Proof.
  intros Hb Hst Hr.
  destruct (transition_same n self X reason s b Hb Hst Hr)
    as (r & nm & Hrepr & Hnm & Hrun).
  by exists r, nm.
Qed.

End SameState.

Section SameStateSample.
#[local] Existing Instance sample_types.
#[local] Existing Instance sample_clock.
Import artifact_builds ArtifactBuild.

(** C2 at build A of the chain, reported in state [BUILD] again. *)
Lemma transition_same_state_is_noop_chain :
  ∃ s', transition 1 1 BUILD "still building" chain = (Ok tt, s') ∧
    artifact_builds_table s' = artifact_builds_table chain ∧
    row_of 1 (artifact_builds_table s') = Some build_A ∧
    events_table s' = events_table chain ∧
    clock s' = clock chain ∧
    length (log s') = S (length (log chain)).
Proof.
  apply (transition_same_state_is_noop 0 chain 1 build_A BUILD "still building").
  - reflexivity.
  - reflexivity.
  - apply sample_repr_defined. left.
Defined.

(** C7 at build A of the chain, reported in state [BUILD] again. *)
Lemma transition_same_state_logs_once_chain :
  ∃ r nm,
    repr 1 chain = (Ok r, chain) ∧ name_of ArtifactBuildState BUILD = Ok nm ∧
    transition 1 1 BUILD "still building" chain
    = (Ok tt, MkSession (events_table chain) (artifact_builds_table chain)
                (log chain ++ [LogRecord (if bool_decide (BUILD = FAILED)
                                          then ERROR else INFO)
                                 r nm "still building"])
                (clock chain)).
Proof.
  apply (transition_same_state_logs_once 0 chain 1 build_A BUILD "still building").
  - reflexivity.
  - reflexivity.
  - apply sample_repr_defined. left.
Defined.

(** C7 as stated fails.  Build A of the chain is in state [BUILD] and the
    log is empty; [A.transition(BUILD, "still building")] leaves one
    record in the log. *)
Lemma repeated_report_is_logged :
  state <$> row_of 1 (artifact_builds_table chain) = Some BUILD ∧
  log chain = [] ∧
  transition 10 1 BUILD "still building" chain
  = (Ok tt, MkSession (events_table chain) (artifact_builds_table chain)
              [LogRecord INFO (BuildRepr "A" "IMAGE" "BUILD" "m1") "BUILD"
                 "still building"]
              (clock chain)).
Proof. by vm_compute. Qed.

End SameStateSample.

(** ** The chain scenario (C3) *)

Section ChainScenario.
Context `{Types} `{Clock} `{!TypesLaws}.
Import artifact_builds ArtifactBuild.



Lemma step_length st s s' :
  step st s s' →
  length (artifact_builds_table s') = length (artifact_builds_table s).
Proof. intros [_ HF]. symmetry. by eapply Forall2_length. Qed.


End ChainScenario.

Section ChainScenarioSample.
#[local] Existing Instance sample_types.
#[local] Existing Instance sample_clock.
#[local] Existing Instance sample_laws.
Import artifact_builds ArtifactBuild.



End ChainScenarioSample.

(** ** [Event.has_all_builds_in_state] (C4) *)

Section AllBuildsInState.
Import artifact_builds.

(** The criterion [state != state] holds of no row, so the count is zero
    whatever the states of the builds. *)
Lemma has_all_builds_in_state_true (self : events.row) (st : Z) s :
  Event.has_all_builds_in_state self st s = (Ok true, s).
Proof.
  unfold Event.has_all_builds_in_state, gets. do 2 f_equal.
  apply bool_decide_eq_true_2.
  induction (filter _ (artifact_builds_table s)) as [|b l IH]; [done|].
  by rewrite filter_cons_False by (by intros []).
Qed.

#[local] Existing Instance sample_types.

(** C4 at the chain, whose three builds belong to event E and are in state
    [BUILD]: asked whether all builds of E are in state [DONE], the method
    answers [True]. *)
Theorem has_all_builds_in_state_ignores_state :
  Forall (λ b, event_id b = Some (events.id event_E) ∧ state b = BUILD)
    (artifact_builds_table chain) ∧
  BUILD ≠ DONE ∧
  Event.has_all_builds_in_state event_E DONE chain = (Ok true, chain).
Proof.
  split; [by repeat constructor|]. split; [done|].
  apply has_all_builds_in_state_true.
Qed.

End AllBuildsInState.

(** ** The flush of the session *)

Section Flush.
Context `{Backend}.

Lemma autoflush_Ok s : flushable s → autoflush s = (Ok tt, s).
Proof.
  unfold flushable, autoflush. intros Hall.
  destruct (filter _ (events_table s)) as [|e l] eqn:Hf; [done|].
  assert (e ∈ filter (λ e, storable (events.event_type_id e) = false)
                (events_table s)) as [Hs Hin]%list_elem_of_filter
    by (rewrite Hf; left).
  rewrite Forall_forall in Hall. specialize (Hall e Hin). congruence.
Qed.

Lemma autoflush_snoc_Raise s e :
  flushable s → storable (events.event_type_id e) = false →
  autoflush (set_events (events_table s ++ [e]) s)
  = (Raise (flush_error (events.event_type_id e)),
     set_events (events_table s ++ [e]) s).
Proof.
  unfold flushable, autoflush. intros Hall He. cbn [events_table set_events].
  rewrite filter_app.
  destruct (filter _ (events_table s)) as [|e0 l] eqn:Hf.
  - by rewrite filter_cons_True.
  - assert (e0 ∈ filter (λ e, storable (events.event_type_id e) = false)
                   (events_table s)) as [Hs Hin]%list_elem_of_filter
      by (rewrite Hf; left).
    rewrite Forall_forall in Hall. specialize (Hall e0 Hin). congruence.
Qed.

Lemma flushable_snoc s e :
  flushable s → storable (events.event_type_id e) = true →
  flushable (set_events (events_table s ++ [e]) s).
Proof.
  unfold flushable. cbn [events_table set_events]. intros Hall He.
  apply Forall_app. split; [done|]. by apply Forall_singleton.
Qed.

Lemma Event_get_eq message_id s :
  flushable s →
  Event.get message_id s
  = (Ok (head (filter (λ e, events.message_id e = message_id)
                 (events_table s))), s).
Proof.
  intros Hs. unfold Event.get. rewrite bind_eq. by rewrite autoflush_Ok.
Qed.

Lemma Event_get_Raise message_id s e0 :
  autoflush s = (Raise e0, s) → Event.get message_id s = (Raise e0, s).
Proof. intros Hs. unfold Event.get. rewrite bind_eq. by rewrite Hs. Qed.

End Flush.

(** ** [Event.get_or_create] (C6) *)

Section GetOrCreate.
Context `{Backend}.

(** C6, as amended.  On a session that can be flushed, two calls of
    [get_or_create] in sequence with the same message id both return,
    with the same event, which carries that message id, whatever the
    other arguments of the second call, and whatever those of the first
    when an event with the message id exists; when none exists, the event
    type given to the first call must be one that can be written to the
    column [event_type_id].  The second call leaves the session as the
    first left it.  When no event had the message id before, the two
    calls together add one row, the event returned, which is then the only
    row with that message id; when one had it, no row is added. *)
Theorem get_or_create_twice (s : Session) (message_id : string)
    (key1 key2 : string) (type1 type2 : pyval) (released1 released2 : bool) :
  flushable s →
  (filter (λ e', events.message_id e' = message_id) (events_table s) = [] →
     storable (Event.encode type1) = true) →
  ∃ e s1,
    Event.get_or_create message_id key1 type1 released1 s = (Ok e, s1) ∧
    Event.get_or_create message_id key2 type2 released2 s1 = (Ok e, s1) ∧
    events.message_id e = message_id ∧
    (filter (λ e', events.message_id e' = message_id) (events_table s) = [] →
       events_table s1 = (events_table s ++ [e])%list ∧
       filter (λ e', events.message_id e' = message_id) (events_table s1)
       = [e]) ∧
    (filter (λ e', events.message_id e' = message_id) (events_table s) ≠ [] →
       s1 = s).
Proof.
  intros Hs Ht.
  unfold Event.get_or_create. rewrite !bind_eq, Event_get_eq by done.
  destruct (filter _ (events_table s)) as [|e0 l] eqn:Hf; simpl.
  - unfold Event.create. rewrite !bind_eq. unfold gets at 1.
    rewrite bind_eq. unfold modify at 1, ret at 1.
    eexists _, _. split; [done|].
    rewrite bind_eq, Event_get_eq by (apply flushable_snoc; auto).
    cbn [events_table set_events].
    rewrite filter_app, Hf. simpl.
    rewrite filter_cons_True by done. simpl.
    split; [done|]. split; [done|]. split; [done|]. done.
  - assert (e0 ∈ filter (λ e', events.message_id e' = message_id)
                    (events_table s)) as [Hm _]%list_elem_of_filter
      by (rewrite Hf; left).
    exists e0, s. unfold ret at 1. split; [done|].
    rewrite bind_eq, Event_get_eq by done. rewrite Hf. simpl.
    split; [done|]. split; [done|]. split; [done|]. done.
Qed.

End GetOrCreate.

Section GetOrCreateSample.
#[local] Existing Instance sample_backend.

(** C6 on a session without events: the two calls, with different
    arguments, add the one event of id 1. *)
Lemma get_or_create_twice_sample :
  ∃ e s1,
    Event.get_or_create "m1" "RHSA-2017:0001" (PyClass "TestingEvent") true
      empty_session = (Ok e, s1) ∧
    Event.get_or_create "m1" "other" (PyInt 5) false s1 = (Ok e, s1) ∧
    events.message_id e = "m1" ∧
    (filter (λ e', events.message_id e' = "m1") (events_table empty_session)
     = [] →
       events_table s1 = (events_table empty_session ++ [e])%list ∧
       filter (λ e', events.message_id e' = "m1") (events_table s1) = [e]) ∧
    (filter (λ e', events.message_id e' = "m1") (events_table empty_session)
     ≠ [] → s1 = empty_session).
Proof.
  apply (get_or_create_twice empty_session "m1" "RHSA-2017:0001" "other"
           (PyClass "TestingEvent") (PyInt 5) true false).
  - apply Forall_nil_2.
  - intros _. reflexivity.
Defined.

(** C6 as stated fails when the event type of the first call cannot be
    written.  With [None], or with the class [BaseEvent], which is no key
    of [EVENT_TYPES], the first call returns a pending event and the
    second, with the same arguments, raises when its query flushes the
    session: the column [event_type_id] is [Integer, nullable=False]. *)
Lemma get_or_create_raises_on_unstorable_type :
  Event.get_or_create "m1" "RHSA-2017:0001" PyNone true empty_session
  = (Ok (events.Row 1 "m1" "RHSA-2017:0001" PyNone true None),
     MkSession [events.Row 1 "m1" "RHSA-2017:0001" PyNone true None]
       [] [] 0) ∧
  Event.get_or_create "m1" "RHSA-2017:0001" PyNone true
    (MkSession [events.Row 1 "m1" "RHSA-2017:0001" PyNone true None] [] [] 0)
  = (Raise (IntegrityError "events.event_type_id"),
     MkSession [events.Row 1 "m1" "RHSA-2017:0001" PyNone true None]
       [] [] 0) ∧
  EVENT_TYPES !! "BaseEvent" = None ∧
  Event.get_or_create "m1" "RHSA-2017:0001" (PyClass "BaseEvent") true
    empty_session
  = (Ok (events.Row 1 "m1" "RHSA-2017:0001" (PyClass "BaseEvent") true None),
     MkSession
       [events.Row 1 "m1" "RHSA-2017:0001" (PyClass "BaseEvent") true None]
       [] [] 0) ∧
  Event.get_or_create "m1" "RHSA-2017:0001" (PyClass "BaseEvent") true
    (MkSession
       [events.Row 1 "m1" "RHSA-2017:0001" (PyClass "BaseEvent") true None]
       [] [] 0)
  = (Raise (StatementError "events.event_type_id" (PyClass "BaseEvent")),
     MkSession
       [events.Row 1 "m1" "RHSA-2017:0001" (PyClass "BaseEvent") true None]
       [] [] 0).
Proof. repeat split; by vm_compute. Qed.

End GetOrCreateSample.

(** ** The event types (C9) *)

Section EventTypes.

Lemma foldl_insert_lookup `{Countable K} {V} (items : list (K * V))
    (m : gmap K V) k v :
  foldl (λ m kv, <[kv.1 := kv.2]> m) m items !! k = Some v →
  (k, v) ∈ items ∨ m !! k = Some v.
Proof.
  revert m. induction items as [|[k0 v0] items IH]; intros m; simpl; [auto|].
  intros [Hin|Hm]%IH; [left; by right|].
  destruct (decide (k0 = k)) as [->|Hne].
  - rewrite lookup_insert_eq in Hm. injection Hm as ->. left. left.
  - rewrite lookup_insert_ne in Hm by done. by right.
Qed.

Lemma EVENT_TYPES_lookup cls code :
  EVENT_TYPES !! cls = Some code → (cls, code) ∈ EVENT_TYPES_items.
Proof.
  intros [?|Hm]%foldl_insert_lookup; [done|]. by rewrite lookup_empty in Hm.
Qed.

Lemma INVERSE_EVENT_TYPES_lookup cls code :
  (cls, code) ∈ EVENT_TYPES_items → INVERSE_EVENT_TYPES !! code = Some cls.
Proof.
  unfold EVENT_TYPES_items. intros Hin.
  repeat (apply elem_of_cons in Hin as [[= -> ->]|Hin]; [by vm_compute|]).
  by apply not_elem_of_nil in Hin.
Qed.


Lemma Event_create_eq message_id search_key v released s :
  Event.create message_id search_key v released s
  = (Ok (events.Row (next_id (events.id <$> events_table s)) message_id
           search_key (Event.encode v) released None),
     set_events
       (events_table s ++
        [events.Row (next_id (events.id <$> events_table s)) message_id
           search_key (Event.encode v) released None]) s).
Proof. done. Qed.


End EventTypes.

Section EventTypesSample.
#[local] Existing Instance sample_backend.



End EventTypesSample.

(** ** Creation and validation (C8, C10) *)

Section Strings.

Lemma ascii_upper_lower c : ascii_upper (ascii_lower c) = ascii_upper c.
Proof. by destruct c as [[] [] [] [] [] [] [] []]. Qed.

Lemma upper_lower s : upper (lower s) = upper s.
Proof.
  unfold upper, lower. induction s as [|c s IH]; [done|].
  simpl. by rewrite ascii_upper_lower, IH.
Qed.

Lemma by_name_NoDup (E : Enum) m :
  NoDup (enum.name <$> E) → m ∈ E → by_name E (enum.name m) = Some m.
Proof.
  unfold by_name. induction E as [|m0 E IH]; [by intros _ ?%not_elem_of_nil|].
  rewrite fmap_cons, NoDup_cons. intros [Hn Hnd] Hin. rewrite filter_cons.
  apply elem_of_cons in Hin as [->|Hin].
  - by rewrite decide_True.
  - rewrite decide_False; [auto|].
    intros Heq. apply Hn. rewrite Heq. by apply list_elem_of_fmap_2.
Qed.

End Strings.

Section Creation.
Context `{Types} `{Clock}.
Import artifact_builds ArtifactBuild.

Lemma create_eq event name ty build_id dep_on st original_nvr rebuilt_nvr s t z :
  validate_type "type" ty = Ok t →
  validate_state "state" (py_or st (PyInt BUILD)) = Ok z →
  create event name ty build_id dep_on st original_nvr rebuilt_nvr s
  = (Ok (Row (next_id (id <$> artifact_builds_table s)) name original_nvr
           rebuilt_nvr t z None (utcnow_at (clock s)) None (id <$> dep_on)
           (events.id <$> event) build_id None),
     MkSession (events_table s)
       (artifact_builds_table s ++
        [Row (next_id (id <$> artifact_builds_table s)) name original_nvr
           rebuilt_nvr t z None (utcnow_at (clock s)) None (id <$> dep_on)
           (events.id <$> event) build_id None])
       (log s) (S (clock s))).
Proof.
  intros Ht Hz. unfold create. rewrite bind_eq. unfold utcnow at 1.
  rewrite bind_eq. unfold lift at 1. rewrite Ht.
  rewrite bind_eq. unfold lift at 1. rewrite Hz. done.
Qed.

Lemma create_bad_type event name ty build_id dep_on st original_nvr
    rebuilt_nvr s e :
  validate_type "type" ty = Raise e →
  create event name ty build_id dep_on st original_nvr rebuilt_nvr s
  = (Raise e, MkSession (events_table s) (artifact_builds_table s) (log s)
                (S (clock s))).
Proof.
  intros Ht. unfold create. rewrite bind_eq. unfold utcnow at 1.
  rewrite bind_eq. unfold lift at 1. by rewrite Ht.
Qed.

Lemma create_bad_state event name ty build_id dep_on st original_nvr
    rebuilt_nvr s t e :
  validate_type "type" ty = Ok t →
  validate_state "state" (py_or st (PyInt BUILD)) = Raise e →
  create event name ty build_id dep_on st original_nvr rebuilt_nvr s
  = (Raise e, MkSession (events_table s) (artifact_builds_table s) (log s)
                (S (clock s))).
Proof.
  intros Ht Hz. unfold create. rewrite bind_eq. unfold utcnow at 1.
  rewrite bind_eq. unfold lift at 1. rewrite Ht.
  rewrite bind_eq. unfold lift at 1. by rewrite Hz.
Qed.

(** C10.  [ArtifactBuild.create] called without a state ([state=None]) and
    with a type that the validator accepts returns a build in state
    [BUILD], with [time_submitted] the reading of the clock taken by the
    call and [time_completed] null, and adds it to the session. *)
Theorem create_defaults s event name ty build_id dep_on original_nvr
    rebuilt_nvr t :
  validate_type "type" ty = Ok t →
  ∃ b s',
    create event name ty build_id dep_on PyNone original_nvr rebuilt_nvr s
    = (Ok b, s') ∧
    state b = BUILD ∧
    time_submitted b = utcnow_at (clock s) ∧
    time_completed b = None ∧
    artifact_builds_table s' = (artifact_builds_table s ++ [b])%list.
Proof.
  intros Ht. eexists _, _. split.
  - apply (create_eq _ _ _ _ _ _ _ _ _ t BUILD); [done|].
    apply validate_code. unfold values. simpl. set_solver.
  - done.
Qed.

End Creation.

Section CreationSample.
#[local] Existing Instance sample_types.
#[local] Existing Instance sample_clock.
Import artifact_builds ArtifactBuild.

(** C10 for a build of event E on the chain, of type "image". *)
Lemma create_defaults_chain :
  ∃ b s',
    create (Some event_E) "D" (PyStr "image") None (Some build_C) PyNone
      None None chain = (Ok b, s') ∧
    state b = BUILD ∧
    time_submitted b = utcnow_at (clock chain) ∧
    time_completed b = None ∧
    artifact_builds_table s' = (artifact_builds_table chain ++ [b])%list.
Proof.
  apply (create_defaults chain (Some event_E) "D" (PyStr "image") None
           (Some build_C) None None 1).
  reflexivity.
Defined.

End CreationSample.

Section Validation.
Context `{Types} `{Clock}.
Import artifact_builds ArtifactBuild.

Lemma validator_reject (E : Enum) key field :
  ¬ accepted E field → validator E key field = Raise (ValueError key field E).
Proof.
  intros Hn. unfold validator.
  destruct (py_in field (PyInt <$> values E)) eqn:Hv.
  { exfalso. apply Hn. left. by apply py_in_ints. }
  destruct (py_in field (PyStr <$> lower_names E)) eqn:Hs; [|done].
  exfalso. apply Hn. right. by apply py_in_strs.
Qed.

Lemma validate_reject (E : Enum) key field :
  ¬ accepted E field → validate E key field = Raise (ValueError key field E).
Proof. intros Hn. unfold validate. by rewrite validator_reject. Qed.

Lemma validator_accept_code (E : Enum) key field z :
  as_int field = Some z → z ∈ values E → validator E key field = Ok field.
Proof.
  intros Hf Hz. unfold validator.
  by rewrite (proj2 (py_in_ints field (values E))) by (by exists z).
Qed.

Lemma validate_accept_code (E : Enum) key field z :
  as_int field = Some z → z ∈ values E → validate E key field = Ok z.
Proof.
  intros Hf Hz. unfold validate.
  by rewrite (validator_accept_code E key field z), Hf.
Qed.

Lemma validator_accept_name (E : Enum) key m :
  NoDup (enum.name <$> E) →
  Forall (λ m, upper (enum.name m) = enum.name m) E →
  m ∈ E →
  validator E key (PyStr (lower (enum.name m))) = Ok (PyInt (enum.value m)).
Proof.
  intros Hnd Hup Hm. unfold validator.
  destruct (py_in _ (PyInt <$> values E)) eqn:Hv.
  { by apply py_in_ints in Hv as (z & [=] & _). }
  rewrite (proj2 (py_in_strs _ (lower_names E))).
  - rewrite Forall_forall in Hup.
    by rewrite upper_lower, (Hup m Hm), by_name_NoDup.
  - eexists. split; [done|].
    by apply (list_elem_of_fmap_2 (λ m, lower (enum.name m))).
Qed.

Lemma validate_accept_name (E : Enum) key m :
  NoDup (enum.name <$> E) →
  Forall (λ m, upper (enum.name m) = enum.name m) E →
  m ∈ E →
  validate E key (PyStr (lower (enum.name m))) = Ok (enum.value m).
Proof.
  intros Hnd Hup Hm. unfold validate. by rewrite validator_accept_name.
Qed.

Lemma accepted_validate (E : Enum) key field :
  NoDup (enum.name <$> E) →
  Forall (λ m, upper (enum.name m) = enum.name m) E →
  accepted E field → ∃ z, validate E key field = Ok z.
Proof.
  intros Hnd Hup [(z & Hf & Hz)|(n & -> & Hn)].
  - exists z. by apply validate_accept_code.
  - apply list_elem_of_fmap in Hn as (m & -> & Hm).
    exists (enum.value m). by apply validate_accept_name.
Qed.

Lemma state_names_distinct : NoDup (enum.name <$> ArtifactBuildState).
Proof. apply (bool_decide_unpack _). by vm_compute. Qed.

Lemma state_names_upper :
  Forall (λ m, upper (enum.name m) = enum.name m) ArtifactBuildState.
Proof. by repeat constructor. Qed.

Lemma update_rows_ids self (f : row → row) bs :
  (∀ b, id (f b) = id b) → id <$> update_rows self f bs = id <$> bs.
Proof.
  intros Hf. unfold update_rows. rewrite <-list_fmap_compose.
  apply list_fmap_ext. intros _ b _. simpl. case_decide; auto.
Qed.

Lemma update_rewritten self (f : row → row) s b :
  (∀ b, id (f b) = id b) →
  row_of self (artifact_builds_table s) = Some b →
  rewritten self (f b) s
    (set_artifact_builds (update_rows self f (artifact_builds_table s)) s).
Proof.
  intros Hf Hb. unfold rewritten. cbn [artifact_builds_table events_table
    set_artifact_builds log clock].
  split; [by apply row_of_update_rows_hit|].
  split; [intros i Hi; by apply row_of_update_rows_miss|].
  split; [by apply update_rows_ids | done].
Qed.

Lemma setattr_state_Ok self field z s b :
  validate_state "state" field = Ok z →
  row_of self (artifact_builds_table s) = Some b →
  ∃ b' s', setattr_state self field s = (Ok tt, s') ∧
           state_assigned z b b' ∧ rewritten self b' s s'.
Proof.
  intros Hv Hb. unfold setattr_state. rewrite bind_eq. unfold lift.
  rewrite Hv. eexists _, _. split; [done|]. split; [|by apply update_rewritten].
  done.
Qed.

Lemma setattr_type_Ok self field z s b :
  validate_type "type" field = Ok z →
  row_of self (artifact_builds_table s) = Some b →
  ∃ b' s', setattr_type self field s = (Ok tt, s') ∧
           type_assigned z b b' ∧ rewritten self b' s s'.
Proof.
  intros Hv Hb. unfold setattr_type. rewrite bind_eq. unfold lift.
  rewrite Hv. eexists _, _. split; [done|]. split; [|by apply update_rewritten].
  done.
Qed.

(** C8, as amended.  Writes to [state] and [type] go through the
    validators, at creation and at every later assignment.  An object
    that is neither equal to the integer code of a member of the
    enumeration nor the lower-cased name of one is refused with the
    [ValueError] that carries the field name, the object and the members,
    and the session is as before (at creation no row is added).  The
    lower-cased name of a member is turned into the member's code by the
    validator, and the row of the build, it alone, then holds that code.
    An object equal to the code of a member (the code itself, or a bool or
    a float equal to it) is returned by the validator as it is, and the
    field of the row then equals that code.  [transition] called with an
    integer that is the code of no state raises before it writes:
    [ArtifactBuildState(state)] fails. *)
Theorem enum_fields_validated `{!TypesLaws} s self :
  (∀ field, ¬ accepted ArtifactBuildState field →
     validator_state "state" field
     = Raise (ValueError "state" field ArtifactBuildState) ∧
     setattr_state self field s
     = (Raise (ValueError "state" field ArtifactBuildState), s)) ∧
  (∀ field, ¬ accepted ArtifactType field →
     validator_type "type" field
     = Raise (ValueError "type" field ArtifactType) ∧
     setattr_type self field s
     = (Raise (ValueError "type" field ArtifactType), s)) ∧
  (∀ m b, m ∈ ArtifactBuildState →
     row_of self (artifact_builds_table s) = Some b →
     validator_state "state" (PyStr (lower (enum.name m)))
     = Ok (PyInt (enum.value m)) ∧
     ∃ b' s', setattr_state self (PyStr (lower (enum.name m))) s = (Ok tt, s') ∧
              state_assigned (enum.value m) b b' ∧ rewritten self b' s s') ∧
  (∀ m b, m ∈ ArtifactType →
     row_of self (artifact_builds_table s) = Some b →
     validator_type "type" (PyStr (lower (enum.name m)))
     = Ok (PyInt (enum.value m)) ∧
     ∃ b' s', setattr_type self (PyStr (lower (enum.name m))) s = (Ok tt, s') ∧
              type_assigned (enum.value m) b b' ∧ rewritten self b' s s') ∧
  (∀ field z b, as_int field = Some z → z ∈ values ArtifactBuildState →
     row_of self (artifact_builds_table s) = Some b →
     validator_state "state" field = Ok field ∧
     ∃ b' s', setattr_state self field s = (Ok tt, s') ∧
              state_assigned z b b' ∧ rewritten self b' s s') ∧
  (∀ field z b, as_int field = Some z → z ∈ values ArtifactType →
     row_of self (artifact_builds_table s) = Some b →
     validator_type "type" field = Ok field ∧
     ∃ b' s', setattr_type self field s = (Ok tt, s') ∧
              type_assigned z b b' ∧ rewritten self b' s s') ∧
  (∀ event name ty build_id dep_on st original_nvr rebuilt_nvr,
     ¬ accepted ArtifactType ty →
     ∃ s', create event name ty build_id dep_on st original_nvr rebuilt_nvr s
           = (Raise (ValueError "type" ty ArtifactType), s') ∧
           artifact_builds_table s' = artifact_builds_table s ∧
           events_table s' = events_table s) ∧
  (∀ event name ty build_id dep_on st original_nvr rebuilt_nvr,
     accepted ArtifactType ty →
     ¬ accepted ArtifactBuildState (py_or st (PyInt BUILD)) →
     ∃ s', create event name ty build_id dep_on st original_nvr rebuilt_nvr s
           = (Raise (ValueError "state" (py_or st (PyInt BUILD))
                       ArtifactBuildState), s') ∧
           artifact_builds_table s' = artifact_builds_table s ∧
           events_table s' = events_table s) ∧
  (∀ n st reason, st ∉ values ArtifactBuildState →
     transition (S n) self st reason s
     = (Raise (NotAValid st ArtifactBuildState), s)).
Proof.
  split; [|split; [|split; [|split; [|split; [|split; [|split; [|split]]]]]]].
  - intros field Hn. split; [by apply validator_reject|].
    unfold setattr_state. rewrite bind_eq. unfold lift.
    unfold validate_state. by rewrite validate_reject.
  - intros field Hn. split; [by apply validator_reject|].
    unfold setattr_type. rewrite bind_eq. unfold lift.
    unfold validate_type. by rewrite validate_reject.
  - intros m b Hm Hb. split.
    + apply validator_accept_name;
        auto using state_names_distinct, state_names_upper.
    + apply setattr_state_Ok; [|done]. apply validate_accept_name;
        auto using state_names_distinct, state_names_upper.
  - intros m b Hm Hb. split.
    + apply validator_accept_name;
        auto using type_names_distinct, type_names_upper.
    + apply setattr_type_Ok; [|done]. apply validate_accept_name;
        auto using type_names_distinct, type_names_upper.
  - intros field z b Hf Hz Hb. split.
    + by apply (validator_accept_code _ _ _ z).
    + apply setattr_state_Ok; [|done]. by apply validate_accept_code.
  - intros field z b Hf Hz Hb. split.
    + by apply (validator_accept_code _ _ _ z).
    + apply setattr_type_Ok; [|done]. by apply validate_accept_code.
  - intros event name ty build_id dep_on st original_nvr rebuilt_nvr Hn.
    eexists. split; [apply create_bad_type; by apply validate_reject | done].
  - intros event name ty build_id dep_on st original_nvr rebuilt_nvr Ha Hn.
    destruct (accepted_validate ArtifactType "type" ty) as [t Ht];
      [apply type_names_distinct | apply type_names_upper | done |].
    eexists. split;
      [eapply create_bad_state; [done | by apply validate_reject] | done].
  - intros n st reason Hst. cbn [transition]. rewrite bind_eq.
    unfold lift, name_of.
    destruct (by_value ArtifactBuildState st) as [m|] eqn:Hm; [|done].
    exfalso. apply Hst, by_value_values. by eexists.
Qed.

End Validation.

Section ValidationSample.
#[local] Existing Instance sample_types.
#[local] Existing Instance sample_clock.
Import artifact_builds ArtifactBuild.

Lemma bogus_not_accepted : ¬ accepted ArtifactBuildState (PyStr "bogus").
Proof.
  intros [(z & [=] & _)|(n & [= <-] & Hn)]. revert Hn.
  apply (bool_decide_unpack _). by vm_compute.
Qed.

Lemma type_9999_not_accepted : ¬ accepted ArtifactType (PyInt 9999).
Proof.
  intros [(z & [= <-] & Hz)|(n & [=] & _)]. revert Hz.
  apply (bool_decide_unpack _). by vm_compute.
Qed.

(** C8 on build A of the chain: [state = "bogus"] and [type = 9999] are
    refused and the session is as before; after [state = "failed"] the row
    of A holds the code of [FAILED] and is otherwise as it was. *)
Lemma enum_fields_validated_chain :
  setattr_state 1 (PyStr "bogus") chain
  = (Raise (ValueError "state" (PyStr "bogus") ArtifactBuildState), chain) ∧
  setattr_type 1 (PyInt 9999) chain
  = (Raise (ValueError "type" (PyInt 9999) ArtifactType), chain) ∧
  ∃ b' s', setattr_state 1 (PyStr "failed") chain = (Ok tt, s') ∧
           state_assigned FAILED build_A b' ∧ rewritten 1 b' chain s'.
Proof.
  destruct (@enum_fields_validated sample_types sample_clock sample_laws
              chain 1) as (Hstate & Htype & Hname & _).
  split; [|split].
  - apply Hstate, bogus_not_accepted.
  - apply Htype, type_9999_not_accepted.
  - apply (Hname (enum.Member "FAILED" FAILED) build_A); [|done].
    unfold ArtifactBuildState. rewrite !elem_of_cons. auto.
Defined.

(** C8 as stated fails.  The float [2.0] is no integer and no string, so
    neither an integer code nor the lower-cased name of a state; it equals
    the code of [FAILED], and the validator returns it as it is, without
    an error: the assignment [A.state = 2.0] returns and A is then in
    state [FAILED]. *)
Lemma float_equal_to_code_is_accepted :
  (∀ z, two_point_zero ≠ PyInt z) ∧
  (∀ n, two_point_zero ≠ PyStr n) ∧
  validator_state "state" two_point_zero = Ok two_point_zero ∧
  returned (setattr_state 1 two_point_zero chain) = true ∧
  state <$> row_of 1 (artifact_builds_table
                        (session_of (setattr_state 1 two_point_zero chain)))
  = Some FAILED.
Proof. repeat split; by vm_compute. Qed.

End ValidationSample.

(** ** Completion times (C5) *)

Section CompletionTime.
Context `{Types} `{Clock}.
Import artifact_builds ArtifactBuild.





End CompletionTime.

Section CompletionTimeSample.
#[local] Existing Instance sample_types.
#[local] Existing Instance sample_clock.
Import artifact_builds ArtifactBuild.



End CompletionTimeSample.

(** * Further properties *)

(** ** What [transition] leaves alone *)

Section TransitionFrame.
Context `{Types} `{Clock}.
Import artifact_builds ArtifactBuild.
Implicit Types (bs : list row) (b : row) (i : Z) (s : Session).


Lemma valid_of_length st s n :
  (length (artifact_builds_table s) < n)%nat →
  (pending st (artifact_builds_table s) < n)%nat.
Proof.
  intros Hn. pose proof (length_filter (λ b, state b ≠ st)
                           (artifact_builds_table s)).
  unfold pending. lia.
Qed.


(** X2.  A call of [transition] to a state other than [FAILED] and
    [CANCELED] makes no nested call (one unit of fuel suffices) and writes
    no row but that of the build: the build gets the state and the
    reason, and the completion time if the state is [DONE], unless it is in
    that state already; every other row, and every event, is as it was. *)
Theorem transition_without_cascade n s self b st reason :
  row_of self (artifact_builds_table s) = Some b →
  repr_defined s b →
  is_Some (by_value ArtifactBuildState st) →
  ¬ cascading st →
  ∃ s', transition (S n) self st reason s = (Ok tt, s') ∧
    row_of self (artifact_builds_table s')
    = Some (if decide (state b = st) then b
            else enter st reason (utcnow_at (clock s)) b) ∧
    (∀ i, i ≠ self →
       row_of i (artifact_builds_table s')
       = row_of i (artifact_builds_table s)) ∧
    events_table s' = events_table s.
Proof.
  intros Hb Hr Hv Hnc. destruct (decide (state b = st)) as [Hst|Hst].
  - destruct (transition_same n self st reason s b Hb Hst Hr)
      as (r & nm & _ & _ & ->).
    eexists. split; [done|]. by repeat split.
  - destruct (transition_enter n self st reason s b Hb Hst Hr Hv)
      as (r & nm & ->).
    rewrite decide_False by done. eexists. split; [done|]. simpl.
    split; [|split; [|done]].
    + by apply row_of_update_rows_hit; auto using enter_id.
    + intros i Hi. by apply row_of_update_rows_miss; auto using enter_id.
Qed.


End TransitionFrame.

Section TransitionFrameSample.
#[local] Existing Instance sample_types.
#[local] Existing Instance sample_clock.
Import artifact_builds ArtifactBuild.


(** X2 at build B of the chain, moved to [DONE]. *)
Lemma transition_without_cascade_chain :
  ∃ s', transition 1 2 DONE "built" chain = (Ok tt, s') ∧
    row_of 2 (artifact_builds_table s')
    = Some (if decide (state build_B = DONE) then build_B
            else enter DONE "built" (utcnow_at (clock chain)) build_B) ∧
    (∀ i, i ≠ 2 →
       row_of i (artifact_builds_table s')
       = row_of i (artifact_builds_table chain)) ∧
    events_table s' = events_table chain.
Proof.
  apply (transition_without_cascade 0 chain 2 build_B DONE "built").
  - reflexivity.
  - apply sample_repr_defined. right. left.
  - by eexists.
  - apply (bool_decide_unpack _). by vm_compute.
Defined.


End TransitionFrameSample.

(** ** [Event.builds_transition] *)

Section BuildsTransition.
Context `{Types} `{Clock}.
Import artifact_builds ArtifactBuild.
Implicit Types (bs : list row) (b : row) (i : Z) (s : Session).



End BuildsTransition.

Section BuildsTransitionSample.
#[local] Existing Instance sample_types.
#[local] Existing Instance sample_clock.
Import artifact_builds ArtifactBuild.


End BuildsTransitionSample.

(** ** Reasons and log records of a cascade *)

Section CascadeReasons.
Context `{Types} `{Clock}.
Import artifact_builds ArtifactBuild.
Implicit Types (bs : list row) (b : row) (i : Z) (s : Session).



Lemma cascaded_moved st b b' : cascaded st b b' → moved st b b'.
Proof.
  intros [->|(Hst & now & ->)]; [by left|]. right. split; [done|].
  by exists cascade_reason, now.
Qed.



Lemma Forall2_cascaded_moved st bs bs' :
  Forall2 (cascaded st) bs bs' → Forall2 (moved st) bs bs'.
Proof. intros HF. eapply Forall2_impl; [done|]. apply cascaded_moved. Qed.






End CascadeReasons.

Section CascadeReasonsClaims.
Context `{Types} `{Clock}.
Import artifact_builds ArtifactBuild.
Implicit Types (bs : list row) (b : row) (i : Z) (s : Session).





End CascadeReasonsClaims.

Section CascadeReasonsSample.
#[local] Existing Instance sample_types.
#[local] Existing Instance sample_clock.
Import artifact_builds ArtifactBuild.



End CascadeReasonsSample.

(** ** What [ArtifactBuild.create] keeps *)

Section CreateInvariants.
Context `{Types} `{Clock}.
Import artifact_builds ArtifactBuild.
Implicit Types (bs : list row) (b : row) (i : Z) (s : Session).

Lemma next_id_above (ids : list Z) i : i ∈ ids → i < next_id ids.
Proof.
  unfold next_id. induction ids as [|j ids IH]; [by intros ?%not_elem_of_nil|].
  simpl. intros [->|Hi]%elem_of_cons; [lia|]. specialize (IH Hi). lia.
Qed.

Lemma next_id_fresh (ids : list Z) : next_id ids ∉ ids.
Proof. intros Hin. apply next_id_above in Hin. lia. Qed.

Lemma row_of_app i bs l :
  row_of i (bs ++ l)
  = match row_of i bs with Some b => Some b | None => row_of i l end.
Proof.
  unfold row_of. rewrite filter_app.
  by destruct (filter (λ b, id b = i) bs).
Qed.

Lemma row_of_snoc_old i bs n :
  i ∈ id <$> bs → row_of i (bs ++ [n]) = row_of i bs.
Proof.
  intros Hi. rewrite row_of_app.
  destruct (row_of i bs) eqn:Hb; [done|]. by apply row_of_None in Hb.
Qed.

Lemma row_of_snoc_new bs n :
  id n ∉ id <$> bs → row_of (id n) (bs ++ [n]) = Some n.
Proof.
  intros Hn. rewrite row_of_app.
  destruct (row_of (id n) bs) as [b|] eqn:Hb.
  - apply row_of_Some in Hb as [Hin Hid]. exfalso. apply Hn.
    rewrite <-Hid. by apply list_elem_of_fmap_2.
  - by rewrite row_of_cons, decide_True.
Qed.

Lemma row_of_is_Some i bs : i ∈ id <$> bs → is_Some (row_of i bs).
Proof.
  intros Hi. destruct (row_of i bs) eqn:Hb; [by eexists|].
  by apply row_of_None in Hb.
Qed.

Lemma validator_value (E : Enum) key field v :
  validator E key field = Ok v →
  accepted E field ∧
  (∃ z, as_int v = Some z ∧ z ∈ values E) ∧
  ((∃ z, as_int field = Some z) → v = field) ∧
  (∀ n, field = PyStr n →
     ∃ m, by_name E (upper n) = Some m ∧ v = PyInt (enum.value m)).
Proof.
  unfold validator.
  destruct (py_in field (PyInt <$> values E)) eqn:Hv.
  { apply py_in_ints in Hv as (z & Hf & Hz). intros [= <-].
    split; [left; by exists z|]. split; [by exists z|]. split; [done|].
    intros n ->. done. }
  destruct (py_in field (PyStr <$> lower_names E)) eqn:Hs; [|done].
  apply py_in_strs in Hs as (n & -> & Hn).
  destruct (by_name E (upper n)) as [m|] eqn:Hm; [|done]. intros [= <-].
  assert (enum.value m ∈ values E) as Hin.
  { apply head_Some_elem_of, list_elem_of_filter in Hm as [_ Hm].
    by apply list_elem_of_fmap_2. }
  split; [right; by exists n|]. split; [by exists (enum.value m)|].
  split; [by intros [z [=]]|]. intros n' [= <-]. by exists m.
Qed.

Lemma validate_value (E : Enum) key field z :
  validate E key field = Ok z →
  accepted E field ∧ z ∈ values E ∧ validate E key (PyInt z) = Ok z.
Proof.
  unfold validate at 1.
  destruct (validator E key field) as [v|] eqn:Hv; [|done].
  apply validator_value in Hv as (Ha & (z' & Hz' & Hin) & _).
  rewrite Hz'. intros [= <-]. split; [done|]. split; [done|].
  by apply validate_code.
Qed.

(** X7.  What a validator lets through is an object that [accepted]
    describes; what it returns equals the value of a member of the
    enumeration, is the object given when that was equal to a code and
    the member's code when a name was given, and is returned as it is when
    given to the validator again: a field read from a row can be written
    back. *)
Theorem validate_returns_member_value (E : Enum) key field v :
  validator E key field = Ok v →
  accepted E field ∧
  (∃ z, as_int v = Some z ∧ z ∈ values E ∧ validate E key field = Ok z ∧
        validate E key (PyInt z) = Ok z) ∧
  ((∃ z, as_int field = Some z) → v = field) ∧
  (∀ n, field = PyStr n →
     ∃ m, by_name E (upper n) = Some m ∧ v = PyInt (enum.value m)) ∧
  validator E key v = Ok v.
Proof.
  intros Hv. pose proof (validator_value _ _ _ _ Hv)
    as (Ha & (z & Hz & Hin) & Hcode & Hname).
  split; [done|]. split; [|split; [done|split; [done|]]].
  - exists z. split; [done|]. split; [done|]. split; [|by apply validate_code].
    unfold validate. by rewrite Hv, Hz.
  - by apply (validator_accept_code _ _ _ z).
Qed.

Lemma event_of_is_Some b s (e : events.row) :
  event_id b = Some (events.id e) →
  events.id e ∈ events.id <$> events_table s →
  is_Some (event_of b s).
Proof.
  intros Hb Hin. unfold event_of. rewrite Hb.
  apply list_elem_of_fmap in Hin as (e' & He' & Hin).
  apply head_is_Some. intros Hnil.
  by pose proof (filter_nil_not_elem_of _ _ e' Hnil (eq_sym He')).
Qed.

(** X8.  In a well-formed session, [create] for an event of the session,
    with a type and a state that the validators let through, returns a
    build whose id no build of the session has, adds it after the rows of
    the table, leaves the events as they are, and the session is well
    formed again, so that [transition] applies to the new build. *)
Theorem create_keeps_well_formed s (e : events.row) name ty build_id dep_on
    st0 original_nvr rebuilt_nvr t z :
  well_formed s →
  events.id e ∈ events.id <$> events_table s →
  validate_type "type" ty = Ok t →
  validate_state "state" (py_or st0 (PyInt BUILD)) = Ok z →
  ∃ b s',
    create (Some e) name ty build_id dep_on st0 original_nvr rebuilt_nvr s
    = (Ok b, s') ∧
    (id b ∉ id <$> artifact_builds_table s) ∧
    artifact_builds_table s' = (artifact_builds_table s ++ [b])%list ∧
    events_table s' = events_table s ∧
    row_of (id b) (artifact_builds_table s') = Some b ∧
    well_formed s'.
Proof.
  intros [Hnd Hall] He Ht Hz.
  rewrite (create_eq _ _ _ _ _ _ _ _ _ t z) by done.
  set (b := Row _ _ _ _ _ _ _ _ _ _ _ _ _).
  assert (id b ∉ id <$> artifact_builds_table s) as Hfresh
    by apply next_id_fresh.
  exists b. eexists. split; [done|].
  cbn [artifact_builds_table events_table].
  split; [done|]. split; [done|]. split; [done|].
  split; [by apply row_of_snoc_new|]. split;
    cbn [artifact_builds_table events_table].
  - rewrite fmap_app. apply NoDup_app. split; [done|]. split.
    + by intros i Hi [->|?%not_elem_of_nil]%elem_of_cons.
    + apply NoDup_singleton.
  - apply Forall_app. split.
    + eapply Forall_impl; [done|]. by intros b0 (? & ? & ?).
    + apply Forall_singleton. repeat split; simpl.
      * apply by_value_values. by apply validate_value in Ht as (_ & ? & _).
      * apply by_value_values. by apply validate_value in Hz as (_ & ? & _).
      * by apply (event_of_is_Some _ _ e).
Qed.

(** X9.  [create] with a state argument that counts as false ([None], 0,
    the empty string) returns a build in state [BUILD]: [state or
    BUILD.value] replaces the argument before the validator sees it, so 0
    and "" are not refused (and a state whose code is 0 can only be asked
    for if it is [BUILD]). *)
Theorem create_falsy_state_is_build s event name ty build_id dep_on st0
    original_nvr rebuilt_nvr t :
  truthy st0 = false →
  validate_type "type" ty = Ok t →
  ∃ b s',
    create event name ty build_id dep_on st0 original_nvr rebuilt_nvr s
    = (Ok b, s') ∧
    state b = BUILD.
Proof.
  intros Hst Ht.
  rewrite (create_eq _ _ _ _ _ _ _ _ _ t BUILD); [by eexists _, _|done|].
  unfold py_or. rewrite Hst. apply validate_code. unfold values. simpl.
  set_solver.
Qed.


Lemma depends_snoc_old bs n i j :
  linked bs → i ∈ id <$> bs → depends (bs ++ [n]) i j →
  depends bs i j ∧ j ∈ id <$> bs.
Proof.
  intros Hl Hi Hd. unfold linked in Hl. rewrite Forall_forall in Hl.
  revert Hi. induction Hd as [d b a Hb Hdep|d b p a Hb Hdep _ IH]; intros Hi.
  - rewrite row_of_snoc_old in Hb by done.
    pose proof Hb as [Hin _]%row_of_Some.
    split; [by eapply depends_direct | by eapply Hl].
  - rewrite row_of_snoc_old in Hb by done.
    pose proof Hb as [Hin _]%row_of_Some.
    destruct IH as [IH1 IH2]; [by eapply Hl|].
    split; [by eapply depends_step | done].
Qed.

Lemma acyclic_snoc bs n :
  linked bs → acyclic bs → id n ∉ id <$> bs →
  (∀ p, dep_on_id n = Some p → p ∈ id <$> bs) →
  linked (bs ++ [n]) ∧ acyclic (bs ++ [n]).
Proof.
  intros Hl Hac Hn Hp. split.
  - unfold linked in *. rewrite Forall_forall in Hl.
    apply Forall_app. split; [apply Forall_forall|apply Forall_singleton].
    + intros b Hb p Hdep. rewrite fmap_app, elem_of_app. left. by eapply Hl.
    + intros p Hdep. rewrite fmap_app, elem_of_app. left. by apply Hp.
  - intros i Hd. destruct (decide (i ∈ id <$> bs)) as [Hi|Hi].
    + apply (Hac i). by eapply depends_snoc_old.
    + assert (∀ b, row_of i (bs ++ [n]) = Some b → b = n) as Hrow.
      { intros b. rewrite row_of_app.
        destruct (row_of i bs) as [b0|] eqn:Hb0.
        - apply row_of_Some in Hb0 as [Hin <-]. exfalso. apply Hi.
          by apply list_elem_of_fmap_2.
        - rewrite row_of_cons. by case_decide; [intros [= <-]|]. }
      inversion Hd as [d b a Hb Hdep|d b p a Hb Hdep Hd']; subst.
      * apply Hrow in Hb as ->. by apply Hp in Hdep.
      * apply Hrow in Hb as ->. apply Hp in Hdep.
        by apply (depends_snoc_old _ _ _ _ Hl Hdep) in Hd' as [_ ?].
Qed.

(** X11.  [create] makes no cycle.  In a table where every [dep_on_id]
    names a row and no build depends on itself, [create] with [dep_on]
    empty or a build of the table, and a type and a state that the
    validators let through, returns, and in the new table again every
    [dep_on_id] names a row and no build depends on itself. *)
Theorem create_keeps_acyclic s event name ty build_id (dep_on : option row)
    st0 original_nvr rebuilt_nvr t z :
  linked (artifact_builds_table s) →
  acyclic (artifact_builds_table s) →
  (∀ p, dep_on = Some p → id p ∈ id <$> artifact_builds_table s) →
  validate_type "type" ty = Ok t →
  validate_state "state" (py_or st0 (PyInt BUILD)) = Ok z →
  ∃ b s',
    create event name ty build_id dep_on st0 original_nvr rebuilt_nvr s
    = (Ok b, s') ∧
    linked (artifact_builds_table s') ∧
    acyclic (artifact_builds_table s').
Proof.
  intros Hl Hac Hp Ht Hz.
  rewrite (create_eq _ _ _ _ _ _ _ _ _ t z) by done.
  set (b := Row _ _ _ _ _ _ _ _ _ _ _ _ _).
  exists b. eexists. split; [done|]. cbn [artifact_builds_table].
  apply acyclic_snoc; [done | done | apply next_id_fresh |].
  intros p Hdep. destruct dep_on as [p0|]; [|done].
  injection Hdep as <-. by apply Hp.
Qed.

End CreateInvariants.

Section CreateInvariantsSample.
#[local] Existing Instance sample_types.
#[local] Existing Instance sample_clock.
Import artifact_builds ArtifactBuild.

Lemma chain_linked : linked (artifact_builds_table chain).
Proof.
  unfold linked. simpl. repeat apply Forall_cons_2; [..|apply Forall_nil_2];
    simpl; intros p [=]; subst; set_solver.
Qed.

(** X7 for the state "failed". *)
Lemma validate_returns_member_value_sample :
  accepted ArtifactBuildState (PyStr "failed") ∧
  (∃ z, as_int (PyInt FAILED) = Some z ∧ z ∈ values ArtifactBuildState ∧
        validate ArtifactBuildState "state" (PyStr "failed") = Ok z ∧
        validate ArtifactBuildState "state" (PyInt z) = Ok z) ∧
  ((∃ z, as_int (PyStr "failed") = Some z) → PyInt FAILED = PyStr "failed") ∧
  (∀ n, PyStr "failed" = PyStr n →
     ∃ m, by_name ArtifactBuildState (upper n) = Some m ∧
          PyInt FAILED = PyInt (enum.value m)) ∧
  validator ArtifactBuildState "state" (PyInt FAILED) = Ok (PyInt FAILED).
Proof.
  apply (validate_returns_member_value ArtifactBuildState "state"
           (PyStr "failed") (PyInt FAILED)).
  reflexivity.
Defined.

(** X8 for a build D of event E on the chain, depending on C. *)
Lemma create_keeps_well_formed_chain :
  ∃ b s',
    create (Some event_E) "D" (PyStr "image") None (Some build_C) PyNone
      None None chain = (Ok b, s') ∧
    (id b ∉ id <$> artifact_builds_table chain) ∧
    artifact_builds_table s' = (artifact_builds_table chain ++ [b])%list ∧
    events_table s' = events_table chain ∧
    row_of (id b) (artifact_builds_table s') = Some b ∧
    well_formed s'.
Proof.
  apply (create_keeps_well_formed chain event_E "D" (PyStr "image") None
           (Some build_C) PyNone None None 1 BUILD).
  - exact chain_well_formed.
  - simpl. set_solver.
  - reflexivity.
  - reflexivity.
Defined.

(** X9 for the state arguments 0 and "". *)
Lemma create_falsy_state_is_build_chain :
  (∃ b s',
     create (Some event_E) "D" (PyStr "image") None None (PyStr "")
       None None chain = (Ok b, s') ∧ state b = BUILD).
Proof.
  apply (create_falsy_state_is_build chain (Some event_E) "D" (PyStr "image")
           None None (PyStr "") None None 1); reflexivity.
Defined.


(** X11 for a build D created on the chain with [dep_on = C]. *)
Lemma create_keeps_acyclic_chain :
  ∃ b s',
    create (Some event_E) "D" (PyStr "image") None (Some build_C) PyNone
      None None chain = (Ok b, s') ∧
    linked (artifact_builds_table s') ∧
    acyclic (artifact_builds_table s').
Proof.
  apply (create_keeps_acyclic chain (Some event_E) "D" (PyStr "image") None
           (Some build_C) PyNone None None 1 BUILD).
  - exact chain_linked.
  - exact (ranked_acyclic _ _ chain_ranked).
  - intros p [= <-]. simpl. set_solver.
  - reflexivity.
  - reflexivity.
Defined.

End CreateInvariantsSample.

(** ** [ArtifactBuild.get_root_dep_on] *)

Section RootDepOn.
Import artifact_builds ArtifactBuild ArtifactBuildMethods.
Implicit Types (bs : list row) (b : row) (i : Z) (s : Session).

Lemma dep_on_Some b s d :
  dep_on b s = Some d →
  dep_on_id b = Some (id d) ∧
  row_of (id d) (artifact_builds_table s) = Some d.
Proof.
  unfold dep_on. destruct (dep_on_id b) as [p|]; [|done]. intros Hd.
  pose proof Hd as [_ <-]%row_of_Some. done.
Qed.

Lemma root_loop_ranked rk s fuel d :
  ranked (artifact_builds_table s) rk →
  row_of (id d) (artifact_builds_table s) = Some d →
  (rk (id d) < fuel)%nat →
  ∃ root,
    root_loop fuel s d = Some root ∧ dep_on root s = None ∧
    row_of (id root) (artifact_builds_table s) = Some root ∧
    (root = d ∨ depends (artifact_builds_table s) (id d) (id root)).
Proof.
  intros Hrk. revert d. induction fuel as [|fuel IH]; intros d Hd Hf; [lia|].
  simpl. destruct (dep_on d s) as [dep|] eqn:Hdep.
  - apply dep_on_Some in Hdep as [Hp Hrow].
    assert (rk (id dep) < rk (id d))%nat as Hlt.
    { unfold ranked in Hrk. rewrite Forall_forall in Hrk.
      apply (Hrk d); [by apply row_of_Some in Hd as [? _] | done]. }
    destruct (IH dep Hrow) as (root & -> & Hnone & Hroot & Hpath); [lia|].
    exists root. split; [done|]. split; [done|]. split; [done|]. right.
    destruct Hpath as [->|Hpath].
    + by eapply depends_direct.
    + by eapply depends_step.
  - exists d. by repeat split; [..|left].
Qed.

(** X12.  In a table whose rows are ranked so that every build ranks above
    the build it depends on (so the [dep_on] links are acyclic),
    [get_root_dep_on] returns after at most as many iterations as the rank
    of the build.  It returns [None] exactly when the build has no
    [dep_on]; otherwise it returns a build of the table that has no
    [dep_on] itself and on which the build depends, directly or
    transitively. *)
Theorem get_root_dep_on_finds_root rk s fuel self :
  ranked (artifact_builds_table s) rk →
  row_of (id self) (artifact_builds_table s) = Some self →
  (rk (id self) ≤ fuel)%nat →
  ∃ r,
    get_root_dep_on fuel self s = Some r ∧
    (r = None ↔ dep_on self s = None) ∧
    (∀ root, r = Some root →
       root ∈ artifact_builds_table s ∧ dep_on root s = None ∧
       depends (artifact_builds_table s) (id self) (id root)).
Proof.
  intros Hrk Hself Hf. unfold get_root_dep_on.
  destruct (dep_on self s) as [d|] eqn:Hdep.
  - apply dep_on_Some in Hdep as [Hp Hrow].
    assert (rk (id d) < rk (id self))%nat as Hlt.
    { unfold ranked in Hrk. rewrite Forall_forall in Hrk.
      apply (Hrk self); [by apply row_of_Some in Hself as [? _] | done]. }
    destruct (root_loop_ranked rk s fuel d Hrk Hrow)
      as (root & -> & Hnone & Hroot & Hpath); [lia|].
    exists (Some root). split; [done|]. split; [done|].
    intros ? [= <-]. split; [by apply row_of_Some in Hroot as [? _]|].
    split; [done|]. destruct Hpath as [->|Hpath].
    + by eapply depends_direct.
    + by eapply depends_step.
  - exists None. by repeat split.
Qed.

Lemma root_loop_no_root s fuel d :
  (∀ b, b ∈ artifact_builds_table s → is_Some (dep_on b s)) →
  d ∈ artifact_builds_table s → root_loop fuel s d = None.
Proof.
  intros Hall. revert d. induction fuel as [|fuel IH]; intros d Hd; [done|].
  simpl. destruct (Hall d Hd) as [dep Hdep]. rewrite Hdep. apply IH.
  by apply dep_on_Some in Hdep as [_ [? _]%row_of_Some].
Qed.

(** X13.  [get_root_dep_on] does not defend against cycles: in a table
    where every build has a [dep_on] (so that every chain of links runs
    into a cycle), the loop of a build of the table is not over after any
    number of iterations. *)
Theorem get_root_dep_on_loops_on_cycle s self :
  (∀ b, b ∈ artifact_builds_table s → is_Some (dep_on b s)) →
  self ∈ artifact_builds_table s →
  ∀ fuel, get_root_dep_on fuel self s = None.
Proof.
  intros Hall Hself fuel. unfold get_root_dep_on.
  destruct (Hall self Hself) as [d Hd]. rewrite Hd.
  rewrite root_loop_no_root; [done | done |].
  by apply dep_on_Some in Hd as [_ [? _]%row_of_Some].
Qed.

(** X12 at build C of the chain: the root is A. *)
Lemma get_root_dep_on_finds_root_chain :
  ∃ r,
    get_root_dep_on 3 build_C chain = Some r ∧
    (r = None ↔ dep_on build_C chain = None) ∧
    (∀ root, r = Some root →
       root ∈ artifact_builds_table chain ∧ dep_on root chain = None ∧
       depends (artifact_builds_table chain) (id build_C) (id root)).
Proof.
  apply (get_root_dep_on_finds_root by_key chain 3 build_C).
  - exact chain_ranked.
  - reflexivity.
  - unfold by_key. simpl. lia.
Defined.

(** X13 at the two builds that depend on each other. *)
Lemma get_root_dep_on_loops_on_cycle_sample :
  get_root_dep_on 1000 build_P cycle = None.
Proof.
  apply (get_root_dep_on_loops_on_cycle cycle build_P).
  - intros b Hb. simpl in Hb.
    repeat apply elem_of_cons in Hb as [->|Hb];
      [..|by apply not_elem_of_nil in Hb]; by eexists.
  - simpl. set_solver.
Defined.

End RootDepOn.

(** ** Events: creation, lookup, types *)

Section EventsMore.
Context `{Types} `{Backend}.

Lemma head_filter_snoc {A} (P : A → Prop) `{∀ x, Decision (P x)}
    (l : list A) x :
  head (filter P (l ++ [x])%list)
  = match head (filter P l) with
    | Some y => Some y
    | None => if decide (P x) then Some x else None
    end.
Proof.
  rewrite filter_app. destruct (filter P l); [|done]. simpl.
  rewrite filter_cons, filter_nil. by case_decide.
Qed.

(** X14.  [Event.create] on a session that can be flushed always adds
    one event, after those of the session and with an id that none of them
    has, also when an event with the message id exists: it does not
    deduplicate.  When the event type can be written to the column,
    [get] for the message id afterwards returns the event it would have
    returned before if there was one, and the new event otherwise, and
    [get_unreleased] returns the unreleased events of before, followed by
    the new event when it was created with [released=False].  When the
    event type cannot be written, [get], for any message id, and
    [get_unreleased] raise the error of the flush.  The builds are as they
    were and a well-formed session stays well formed. *)
Theorem event_create_appends s message_id search_key v released :
  flushable s →
  ∃ e s',
    Event.create message_id search_key v released s = (Ok e, s') ∧
    (events.id e ∉ events.id <$> events_table s) ∧
    events_table s' = (events_table s ++ [e])%list ∧
    artifact_builds_table s' = artifact_builds_table s ∧
    (storable (Event.encode v) = true →
       Event.get message_id s'
       = (Ok (Some (match head (filter (λ e0, events.message_id e0 = message_id)
                                  (events_table s)) with
                    | Some e0 => e0
                    | None => e
                    end)), s') ∧
       EventMethods.get_unreleased s'
       = (Ok (filter (λ e, events.released e = false) (events_table s)
              ++ (if released then [] else [e]))%list, s')) ∧
    (storable (Event.encode v) = false →
       (∀ m, Event.get m s' = (Raise (flush_error (Event.encode v)), s')) ∧
       EventMethods.get_unreleased s'
       = (Raise (flush_error (Event.encode v)), s')) ∧
    (well_formed s → well_formed s').
Proof.
  intros Hs. rewrite Event_create_eq.
  set (e := events.Row _ _ _ _ _ _).
  exists e. eexists. split; [done|].
  split; [apply next_id_fresh|]. split; [done|]. split; [done|].
  split; [|split].
  - intros Hv. split.
    + rewrite Event_get_eq by (by apply flushable_snoc).
      cbn [events_table set_events]. f_equal. f_equal.
      rewrite head_filter_snoc.
      destruct (head (filter _ (events_table s))); [done|].
      by rewrite decide_True.
    + unfold EventMethods.get_unreleased. rewrite bind_eq.
      rewrite autoflush_Ok by (by apply flushable_snoc).
      unfold gets. cbn [events_table set_events].
      f_equal. f_equal. rewrite filter_app. f_equal.
      destruct released;
        [by rewrite filter_cons_False | by rewrite filter_cons_True].
  - intros Hv. split.
    + intros m. apply Event_get_Raise. by apply (autoflush_snoc_Raise s e).
    + unfold EventMethods.get_unreleased. rewrite bind_eq.
      by rewrite (autoflush_snoc_Raise s e).
  - intros [Hnd Hall]. split; [done|]. cbn [artifact_builds_table set_events].
    eapply Forall_impl; [done|]. intros b (Ht & Hst & Hev).
    split; [done|]. split; [done|].
    unfold ArtifactBuild.event_of in *. unfold set_events.
    cbn [events_table].
    destruct (artifact_builds.event_id b) as [i|]; [|done].
    rewrite head_filter_snoc. by destruct Hev as [e0 ->].
Qed.

Lemma EVENT_TYPES_swap cls code :
  EVENT_TYPES !! cls = Some code ↔ INVERSE_EVENT_TYPES !! code = Some cls.
Proof.
  split.
  - intros Hc. by apply INVERSE_EVENT_TYPES_lookup, EVENT_TYPES_lookup.
  - intros [Hin|Hm]%foldl_insert_lookup; [|by rewrite lookup_empty in Hm].
    apply list_elem_of_fmap in Hin as ([cls' code'] & [= -> ->] & Hin).
    unfold EVENT_TYPES_items in Hin.
    repeat (apply elem_of_cons in Hin as [[= -> ->]|Hin]; [by vm_compute|]).
    by apply not_elem_of_nil in Hin.
Qed.

(** X15.  [INVERSE_EVENT_TYPES] is the inverse of [EVENT_TYPES]: a class
    has a code exactly when the code has that class, so no two classes
    share a code and no code is left without its class. *)
Theorem EVENT_TYPES_inverse cls code :
  EVENT_TYPES !! cls = Some code ↔ INVERSE_EVENT_TYPES !! code = Some cls.
Proof. apply EVENT_TYPES_swap. Qed.

(** X16.  The event that [Event.create] returns can be printed exactly
    when the event type given was a class of [EVENT_TYPES] or an object
    equal to the code of one (the dictionary finds its keys by [==], so a
    bool or a float equal to a code does as the code): its [__repr__] then
    shows the message id, the class and the search key, and raises
    [KeyError] with the event type given for any other. *)
Theorem event_repr_after_create s message_id search_key v released :
  ∃ e s',
    Event.create message_id search_key v released s = (Ok e, s') ∧
    (∀ cls code, EVENT_TYPES !! cls = Some code →
       v = PyClass cls ∨ as_int v = Some code →
       EventMethods.repr e = Ok (message_id, cls, search_key)) ∧
    ((∀ cls code, EVENT_TYPES !! cls = Some code →
        v ≠ PyClass cls ∧ as_int v ≠ Some code) →
     EventMethods.repr e = Raise (KeyError v)).
Proof.
  rewrite Event_create_eq. eexists _, _. split; [done|].
  unfold EventMethods.repr, Event.event_type. cbn [events.event_type_id
    events.message_id events.search_key]. split.
  - intros cls code Hc [-> | Hv].
    + simpl. rewrite Hc. simpl.
      by rewrite (proj1 (EVENT_TYPES_swap cls code) Hc).
    + assert (Event.encode v = v) as -> by (by destruct v).
      by rewrite Hv, (proj1 (EVENT_TYPES_swap cls code) Hc).
  - intros Hv.
    assert (Event.encode v = v) as ->.
    { destruct v as [| | | | |cls]; try done. simpl.
      destruct (EVENT_TYPES !! cls) as [code|] eqn:Hc; [|done].
      by destruct (Hv cls code Hc) as [? _]. }
    destruct (as_int v) as [code|] eqn:Hi; [|done].
    destruct (INVERSE_EVENT_TYPES !! code) as [cls|] eqn:Hl; [|done].
    apply EVENT_TYPES_swap in Hl. by destruct (Hv cls code Hl) as [_ ?].
Qed.

End EventsMore.

Section EventsMoreSample.
#[local] Existing Instance sample_types.
#[local] Existing Instance sample_backend.

(** X14 on the chain: a second event with the message id "m1", created
    with [None] as event type and [released=False]. *)
Lemma event_create_appends_sample :
  ∃ e s',
    Event.create "m1" "RHSA-2017:0003" PyNone false chain = (Ok e, s') ∧
    (events.id e ∉ events.id <$> events_table chain) ∧
    events_table s' = (events_table chain ++ [e])%list ∧
    artifact_builds_table s' = artifact_builds_table chain ∧
    (storable (Event.encode PyNone) = true →
       Event.get "m1" s'
       = (Ok (Some (match head (filter (λ e0, events.message_id e0 = "m1")
                                  (events_table chain)) with
                    | Some e0 => e0
                    | None => e
                    end)), s') ∧
       EventMethods.get_unreleased s'
       = (Ok (filter (λ e, events.released e = false) (events_table chain)
              ++ (if false then [] else [e]))%list, s')) ∧
    (storable (Event.encode PyNone) = false →
       (∀ m, Event.get m s' = (Raise (flush_error (Event.encode PyNone)), s')) ∧
       EventMethods.get_unreleased s'
       = (Raise (flush_error (Event.encode PyNone)), s')) ∧
    (well_formed chain → well_formed s').
Proof.
  apply (event_create_appends chain "m1" "RHSA-2017:0003" PyNone false).
  apply Forall_singleton. reflexivity.
Defined.

End EventsMoreSample.

(** ** Event dependencies and users *)

Section DependenciesAndUsers.


Lemma find_user_by_name_eq username us :
  NoDup (users.username <$> us) →
  User.find_user_by_name username us
  = Ok (head (filter (λ u, users.username u = username) us)).
Proof.
  intros Hnd. unfold User.find_user_by_name, User.flush.
  rewrite decide_True by done. by destruct (filter _ us).
Qed.

(** X18.  On users whose names are distinct, [find_user_by_name] returns
    [None], without an exception, when no user has the name, and then
    only.  [create_user] adds a pending user with an id that no user had.
    When no user had the name, [find_user_by_name] afterwards finds the
    new user for it, and for every other name what it found before.  When
    a user had the name, [create_user] still returns, and the next
    [find_user_by_name], for any name, raises the [IntegrityError] of the
    flush: [username] is unique. *)
Theorem create_user_then_find (username : string) (us : list users.row) :
  NoDup (users.username <$> us) →
  (User.find_user_by_name username us = Ok None
   ↔ username ∉ users.username <$> us) ∧
  (users.id (User.create_user username us).1 ∉ users.id <$> us) ∧
  users.username (User.create_user username us).1 = username ∧
  (User.create_user username us).2
  = (us ++ [(User.create_user username us).1])%list ∧
  (username ∉ users.username <$> us →
     User.find_user_by_name username (User.create_user username us).2
     = Ok (Some (User.create_user username us).1) ∧
     ∀ other, other ≠ username →
       User.find_user_by_name other (User.create_user username us).2
       = User.find_user_by_name other us) ∧
  (username ∈ users.username <$> us →
     ∀ other,
       User.find_user_by_name other (User.create_user username us).2
       = Raise (IntegrityError "users.username")).
Proof.
  intros Hnd.
  assert (filter (λ u, users.username u = username) us = []
          ↔ username ∉ users.username <$> us) as Hfil.
  { destruct (filter _ us) as [|u l] eqn:Hf.
    - split; [|done]. intros _ (u & Hu & Hin)%list_elem_of_fmap.
      by pose proof (filter_nil_not_elem_of _ _ u Hf (eq_sym Hu)).
    - split; [done|]. intros Hn. exfalso. apply Hn.
      assert (u ∈ filter (λ u, users.username u = username) us)
        as [<- Hin]%list_elem_of_filter by (rewrite Hf; left).
      by apply list_elem_of_fmap_2. }
  split; [|split; [apply next_id_fresh|split; [done|split; [done|split]]]].
  - rewrite find_user_by_name_eq by done. rewrite <-Hfil.
    destruct (filter _ us); [done|]. split; [by intros [=] | done].
  - intros Hn. unfold User.create_user. cbn [fst snd].
    assert (NoDup (users.username <$> us ++ [users.Row
              (next_id (users.id <$> us)) username])%list) as Hnd'.
    { rewrite fmap_app. apply NoDup_app. split; [done|]. split.
      - intros x Hx [->|[]%not_elem_of_nil]%elem_of_cons. done.
      - apply NoDup_singleton. }
    split.
    + rewrite find_user_by_name_eq by done.
      rewrite filter_app, (proj2 Hfil Hn). simpl.
      by rewrite filter_cons_True.
    + intros other Hne. rewrite !find_user_by_name_eq by done.
      rewrite filter_app.
      rewrite (filter_cons_False _ (users.Row _ _)) by (simpl; congruence).
      by rewrite filter_nil, app_nil_r.
  - intros Hin other. unfold User.find_user_by_name, User.flush,
      User.create_user. cbn [fst snd].
    rewrite decide_False; [done|].
    rewrite fmap_app. intros (_ & Hdisj & _)%NoDup_app.
    apply (Hdisj username Hin). simpl. left.
Qed.

(** X18 for a second user named "alice". *)
Lemma create_user_then_find_sample :
  (User.find_user_by_name "alice" [users.Row 1 "alice"] = Ok None
   ↔ "alice" ∉ users.username <$> [users.Row 1 "alice"]) ∧
  (users.id (User.create_user "alice" [users.Row 1 "alice"]).1
   ∉ users.id <$> [users.Row 1 "alice"]) ∧
  users.username (User.create_user "alice" [users.Row 1 "alice"]).1 = "alice" ∧
  (User.create_user "alice" [users.Row 1 "alice"]).2
  = ([users.Row 1 "alice"]
     ++ [(User.create_user "alice" [users.Row 1 "alice"]).1])%list ∧
  ("alice" ∉ users.username <$> [users.Row 1 "alice"] →
     User.find_user_by_name "alice"
       (User.create_user "alice" [users.Row 1 "alice"]).2
     = Ok (Some (User.create_user "alice" [users.Row 1 "alice"]).1) ∧
     ∀ other, other ≠ "alice" →
       User.find_user_by_name other
         (User.create_user "alice" [users.Row 1 "alice"]).2
       = User.find_user_by_name other [users.Row 1 "alice"]) ∧
  ("alice" ∈ users.username <$> [users.Row 1 "alice"] →
     ∀ other,
       User.find_user_by_name other
         (User.create_user "alice" [users.Row 1 "alice"]).2
       = Raise (IntegrityError "users.username")).
Proof.
  apply (create_user_then_find "alice" [users.Row 1 "alice"]).
  simpl. apply NoDup_singleton.
Defined.

End DependenciesAndUsers.

(** ** Cascades on tables where no build is in the target state *)

Section FullCascade.
Context `{Types} `{Clock}.
Import artifact_builds ArtifactBuild.
Implicit Types (bs : list row) (b : row) (i : Z) (s : Session).



Lemma for_each_transition_only n st reason :
  is_Some (by_value ArtifactBuildState st) → ¬ cascading st →
  ∀ cs s,
    well_formed s →
    (∀ c, c ∈ cs → is_Some (row_of (id c) (artifact_builds_table s))) →
    (length (artifact_builds_table s) < n)%nat →
    ∃ s',
      for_each cs (λ build, transition n (id build) st reason) s
      = (Ok tt, s') ∧
      step st s s' ∧
      (∀ i, i ∉ id <$> cs →
         row_of i (artifact_builds_table s')
         = row_of i (artifact_builds_table s)).
Proof.
  intros Hv Hnc. induction cs as [|c cs IH]; intros s Hwf Hcs Hn.
  - exists s. split; [done|]. split; [apply step_refl | done].
  - cbn [for_each]. rewrite bind_eq.
    destruct (transition_post n s (id c) st reason Hv Hwf)
      as (s1 & -> & Hpost);
      [apply Hcs; left | by apply valid_of_length |].
    pose proof Hpost as (Hs1 & _ & _ & _ & Honly).
    assert (well_formed s1) as Hwf1 by (by eapply step_well_formed).
    destruct (IH s1 Hwf1) as (s2 & -> & Hs2 & Hframe).
    { intros c' Hc'. destruct (Hcs c') as [b Hb]; [by right|].
      destruct (step_row_of _ _ _ _ _ Hs1 Hb) as (b' & -> & _). by eexists. }
    { by rewrite (step_length _ _ _ Hs1). }
    exists s2. split; [done|]. split; [by eapply step_trans|].
    intros i Hi. rewrite fmap_cons, not_elem_of_cons in Hi.
    destruct Hi as [Hic Hi]. rewrite (Hframe i Hi).
    eapply post_unchanged; [done|]. intros Hch. by apply Honly in Hch.
Qed.

(** X20.  [builds_transition] to a state other than [FAILED] and
    [CANCELED] returns on a well-formed session, given fuel for the rows
    of the table, and writes only the builds of the event: the row of
    every build of another event, or of none, is as it was. *)
Theorem builds_transition_only_own n s (self : events.row) st reason :
  well_formed s →
  is_Some (by_value ArtifactBuildState st) → ¬ cascading st →
  (length (artifact_builds_table s) < n)%nat →
  ∃ s', EventMethods.builds_transition n self st reason s = (Ok tt, s') ∧
    (∀ b, b ∈ artifact_builds_table s →
          event_id b ≠ Some (events.id self) →
          row_of (id b) (artifact_builds_table s') = Some b).
Proof.
  intros Hwf Hv Hnc Hn. unfold EventMethods.builds_transition.
  rewrite bind_eq. unfold EventMethods.builds at 1, gets at 1.
  destruct (for_each_transition_only n st reason Hv Hnc
              (filter (λ b, event_id b = Some (events.id self))
                 (artifact_builds_table s)) s Hwf)
    as (s' & -> & Hstep & Hframe); [|done|].
  { intros c [_ Hc]%list_elem_of_filter. exists c.
    apply row_of_NoDup; [apply Hwf | done]. }
  exists s'. split; [done|]. intros b Hin Hev.
  rewrite Hframe; [apply row_of_NoDup; [apply Hwf | done]|].
  intros (b0 & Hid & [Hev0 Hin0]%list_elem_of_filter)%list_elem_of_fmap.
  apply Hev. rewrite <-Hev0. f_equal.
  destruct Hwf as [Hnd _].
  apply (row_of_NoDup _ _ Hnd) in Hin. apply (row_of_NoDup _ _ Hnd) in Hin0.
  rewrite Hid in Hin. congruence.
Qed.

End FullCascade.

Section FullCascadeSample.
#[local] Existing Instance sample_types.
#[local] Existing Instance sample_clock.
Import artifact_builds ArtifactBuild.



Lemma two_events_well_formed : well_formed two_events.
Proof.
  split.
  - apply (bool_decide_unpack _). by vm_compute.
  - apply Forall_forall. intros b Hb. simpl in Hb.
    repeat apply elem_of_cons in Hb as [->|Hb];
      [..|by apply not_elem_of_nil in Hb]; repeat split; by eexists.
Qed.

(** X20 for event E in the session of two events, all its builds done:
    build D of event F is as it was. *)
Lemma builds_transition_only_own_sample :
  ∃ s', EventMethods.builds_transition 10 event_E DONE "built" two_events
        = (Ok tt, s') ∧
    (∀ b, b ∈ artifact_builds_table two_events →
          event_id b ≠ Some (events.id event_E) →
          row_of (id b) (artifact_builds_table s') = Some b).
Proof.
  apply (builds_transition_only_own 10 two_events event_E DONE "built").
  - exact two_events_well_formed.
  - by eexists.
  - apply (bool_decide_unpack _). by vm_compute.
  - simpl. lia.
Defined.

End FullCascadeSample.
